(** * Authentication gate and payment confirmation of the wallet client

    A shallow embedding of
    [src/app/screens/authentication-screen/authentication-screen.tsx]
    (which holds two view-controllers: [AuthenticationScreen] and
    [SendBitcoinConfirmationScreen]) and the properties of their handlers.

    Conventions of the embedding:
    - a handler is a function producing the list of calls it makes to the
      platform, the navigation object and the backend, in program order;
    - React state ([useState]) is an explicit record threaded through a small
      state/trace/exception monad; calls of the state setters are recorded in
      the trace as well;
    - a JavaScript [number] holding an amount of satoshis (or of cents) is a
      [Z]; the only operations the screen applies to amounts are [+], [>] and
      [=== 0], and [+] is the addition of IEEE 754 doubles, which rounds
      sums that need more than 53 bits;
    - what an awaited promise settles with, and what the user or the platform
      answers, is an argument of the handler. *)

From Stdlib Require Import String Ascii List ZArith Bool Lia.
From Stdlib Require Import Floats.SpecFloat.
Import ListNotations.

Local Open Scope string_scope.
Local Open Scope list_scope.

(** ** Values shared by the two screens *)

(** [translate(key, options)] of [../../i18n]: the module is outside the
    sources, so the lookup is a parameter of every definition that calls it.
    The options object is a list of named strings. *)
Definition Translate : Type := string -> list (string * string) -> string.

(** * The authentication screen *)

Module AuthenticationScreen.

(** [AuthenticationScreenPurpose] of [../../utils/enum]. The screen names
    two members; every comparison chain ends in an [else] branch, which is
    where any further member lands. *)
Inductive AuthenticationScreenPurpose : Type :=
| Authenticate
| TurnOnAuthentication
| OtherPurpose (name : string).

(** [PinScreenPurpose] of [../../utils/enum]; the screen uses one member. *)
Inductive PinScreenPurpose : Type :=
| AuthenticatePin.

(** How the operating-system prompt ends. *)
Inductive PromptResult : Type :=
| PromptSucceeded
| PromptDismissed.

(** Calls the screen makes, in the order it makes them. *)
Inductive Call : Type :=
| BiometricPrompt (description : option string)
| ResetPinAttempts
| SetIsBiometricsEnabled
| NavigationReplace (screen : string)
| NavigationNavigate (screen : string) (screenPurpose : PinScreenPurpose)
| CheckClipboard
| ResetDataStore
| AlertShown (title body : string) (buttons : list string).

Record Params : Type := {
  screenPurpose : AuthenticationScreenPurpose;
  isPinEnabled : bool
}.

Definition isAuthenticate (p : AuthenticationScreenPurpose) : bool :=
  match p with Authenticate => true | _ => false end.

Definition isTurnOnAuthentication (p : AuthenticationScreenPurpose) : bool :=
  match p with TurnOnAuthentication => true | _ => false end.

Section Screen.
Variable translate : Translate.
Variable params : Params.

Definition handleAuthenticationSuccess : list Call :=
  if isAuthenticate (screenPurpose params) then
    [ResetPinAttempts; NavigationReplace "Primary"; CheckClipboard]
  else if isTurnOnAuthentication (screenPurpose params) then
    [SetIsBiometricsEnabled]
  else [].

(** "This is called when a user cancels or taps out of the authentication
    prompt, so no action is necessary." *)
Definition handleAuthenticationFailure : list Call := [].

(** [BiometricWrapper.authenticate(description, onSuccess, onFailure)]:
    the wrapper is outside the sources; it presents the prompt and then
    runs the callback that matches how the prompt ended. *)
Definition BiometricWrapper_authenticate
    (description : option string) (onSuccess onFailure : list Call)
    (result : PromptResult) : list Call :=
  BiometricPrompt description ::
  match result with
  | PromptSucceeded => onSuccess
  | PromptDismissed => onFailure
  end.

Definition attemptAuthentication (result : PromptResult) : list Call :=
  let description :=
    if isAuthenticate (screenPurpose params) then
      Some (translate "AuthenticationScreen.authenticationDescription" [])
    else if isTurnOnAuthentication (screenPurpose params) then
      Some (translate "AuthenticationScreen.setUpAuthenticationDescription" [])
    else None in
  BiometricWrapper_authenticate description
    handleAuthenticationSuccess handleAuthenticationFailure result.

(** [logout]: wipe the store, then an alert whose single button, once
    pressed, replaces the current route. *)
Definition logout (okPressed : bool) : list Call :=
  ResetDataStore ::
  AlertShown (translate "common.loggedOut" []) "" [translate "common.ok" []] ::
  (if okPressed then [NavigationReplace "Primary"] else []).

(** The buttons of the screen: a title and what a press does. *)
Record ButtonView : Type := {
  title : string;
  onPress : list Call
}.

Definition pinButtonContent : list ButtonView :=
  if isPinEnabled params then
    [ {| title := translate "AuthenticationScreen.usePin" [];
         onPress := [NavigationNavigate "pin" AuthenticatePin] |} ]
  else [].

Definition alternateContent (okPressed : bool) : list ButtonView :=
  if isAuthenticate (screenPurpose params) then
    pinButtonContent ++
    [ {| title := translate "common.logout" [];
         onPress := logout okPressed |} ]
  else if isTurnOnAuthentication (screenPurpose params) then
    [ {| title := translate "AuthenticationScreen.skip" [];
         onPress := [NavigationReplace "Primary"] |} ]
  else [].

Definition mainButton (result : PromptResult) : ButtonView :=
  {| title :=
       if isAuthenticate (screenPurpose params) then
         translate "AuthenticationScreen.unlock" []
       else if isTurnOnAuthentication (screenPurpose params) then
         translate "AuthenticationScreen.setUp" []
       else "";
     onPress := attemptAuthentication result |}.

End Screen.

End AuthenticationScreen.


(** * The payment confirmation screen *)

Module SendBitcoinConfirmationScreen.

(** ** Data *)

(** [CurrencyType]: the global type is declared outside the sources; the
    screen uses its two members ["BTC"] and ["USD"]. *)
Inductive CurrencyType : Type := BTC | USD.

Definition CurrencyType_eqb (a b : CurrencyType) : bool :=
  match a, b with
  | BTC, BTC | USD, USD => true
  | _, _ => false
  end.

Record MoneyAmount : Type := {
  value : Z;
  currency : CurrencyType
}.

(** An element of the visible error list, [{ message: string }]. *)
Record ErrorMessage : Type := { message : string }.

(** A top-level GraphQL error: a message and the response path it is about. *)
Record GraphQLError : Type := {
  gql_message : string;
  gql_path : list string
}.

(** The four mutation documents. *)
Inductive Mutation : Type :=
| LN_PAY
| LN_NO_AMOUNT_PAY
| INTRA_LEDGER_PAY
| ONCHAIN_PAY.

(** The root field each document selects. *)
Definition mutationField (m : Mutation) : string :=
  match m with
  | LN_PAY => "lnInvoicePaymentSend"
  | LN_NO_AMOUNT_PAY => "lnNoAmountInvoicePaymentSend"
  | INTRA_LEDGER_PAY => "intraLedgerPaymentSend"
  | ONCHAIN_PAY => "onChainPaymentSend"
  end.

(** The [input] variable of a mutation call. *)
Inductive Input : Type :=
| LnInvoicePaymentInput (paymentRequest memo : string)
| LnNoAmountInvoicePaymentInput (paymentRequest : string) (amount : Z) (memo : string)
| IntraLedgerPaymentSendInput (recipient : string) (amount : Z) (memo : string)
| OnChainPaymentSendInput (address : string) (amount : Z) (memo : string).

(** The selection [errors { message } status] of every document. *)
Record Payload : Type := {
  payload_errors : list ErrorMessage;
  payload_status : string
}.

(** What an awaited mutation resolves with: [{ data, errors }]. [data] is
    [None] when the response has no payload for the root field; [errors] is
    [None] when the response has no top-level error array. *)
Record FetchResult : Type := {
  data : option Payload;
  errors : option (list GraphQLError)
}.

(** A thrown value. [Rejection] is whatever the mutation promise rejects
    with, kept as the text a template literal renders it to; [TypeError]
    is what reading a property of [null] raises. *)
Inductive JsError : Type :=
| Rejection (rendering : string)
| TypeError (description : string).

Definition toString (e : JsError) : string :=
  match e with
  | Rejection rendering => rendering
  | TypeError description => "TypeError: " ++ description
  end.

Inductive Settlement : Type :=
| Fulfilled (result : FetchResult)
| Rejected (error : JsError).

(** The backend's answer to one mutation call, together with whether the
    client ran the hook's [update] callback before the promise settled. *)
Record Reply : Type := {
  cacheUpdated : bool;
  settled : Settlement
}.

(** The screen status: the values of the [Status] object, compared as
    strings at run time. *)
Definition StatusType : Type := string.

Module Status.
Definition IDLE : StatusType := "idle".
Definition LOADING : StatusType := "loading".
Definition PENDING : StatusType := "pending".
Definition SUCCESS : StatusType := "success".
Definition ERROR : StatusType := "error".
End Status.

Inductive LogEntry : Type :=
| LogError (error : JsError) (label : string)
| LogOnchain (label address : string) (amount : Z) (memo : string).

(** Haptic options object. *)
Record HapticOptions : Type := {
  enableVibrateFallback : bool;
  ignoreAndroidSystemSettings : bool
}.

(** Calls the screen makes, in the order it makes them; the two state
    setters are calls too. *)
Inductive Call : Type :=
| SetStatus (status : StatusType)
| SetErrs (errs : list ErrorMessage)
| Mutate (document : Mutation) (input : Input)
| QueryTransactions (fetchPolicy : string)
| QueryWallet (fetchPolicy : string)
| ConsoleLog (entry : LogEntry)
| NavigationPop (count : nat)
| HapticTrigger (notificationType : option string) (options : HapticOptions).

(** The two [useState] cells. *)
Record State : Type := {
  errs : list ErrorMessage;
  status : StatusType
}.

Definition initialState : State := {| errs := []; status := Status.IDLE |}.

(** ** The monad of handlers: state, trace of calls, exceptions *)

Inductive Completion (A : Type) : Type :=
| Normal (a : A)
| Throw (e : JsError).
Arguments Normal {A} a.
Arguments Throw {A} e.

Definition M (A : Type) : Type := State -> Completion A * State * list Call.

Definition ret {A} (a : A) : M A := fun st => (Normal a, st, []).

Definition bind {A B} (c : M A) (k : A -> M B) : M B :=
  fun st =>
    match c st with
    | (Normal a, st1, t1) =>
        match k a st1 with
        | (r, st2, t2) => (r, st2, t1 ++ t2)
        end
    | (Throw e, st1, t1) => (Throw e, st1, t1)
    end.

Definition throw {A} (e : JsError) : M A := fun st => (Throw e, st, []).

(** [try { body } catch (err) { handler(err) }] *)
Definition tryCatch {A} (body : M A) (handler : JsError -> M A) : M A :=
  fun st =>
    match body st with
    | (Normal a, st1, t1) => (Normal a, st1, t1)
    | (Throw e, st1, t1) =>
        match handler e st1 with
        | (r, st2, t2) => (r, st2, t1 ++ t2)
        end
    end.

Definition call (c : Call) : M unit := fun st => (Normal tt, st, [c]).

Definition getStatus : M StatusType := fun st => (Normal (status st), st, []).

Definition setStatus (s : StatusType) : M unit :=
  fun st => (Normal tt, {| errs := errs st; status := s |}, [SetStatus s]).

Definition setErrs (l : list ErrorMessage) : M unit :=
  fun st => (Normal tt, {| errs := l; status := status st |}, [SetErrs l]).

Declare Scope handler_scope.
Delimit Scope handler_scope with handler.
Bind Scope handler_scope with M.
Notation "x <- c ;; k" := (bind c (fun x => k))
  (at level 61, c at next level, right associativity) : handler_scope.
Notation "c ;; k" := (bind c (fun _ => k))
  (at level 61, right associativity) : handler_scope.
Local Open Scope handler_scope.

(** Projections of a run. *)
Definition completion {A} (r : Completion A * State * list Call) : Completion A :=
  fst (fst r).
Definition finalState {A} (r : Completion A * State * list Call) : State :=
  snd (fst r).
Definition trace {A} (r : Completion A * State * list Call) : list Call :=
  snd r.

(** The mutation calls of a trace, in order. *)
Fixpoint mutations (t : list Call) : list (Mutation * Input) :=
  match t with
  | [] => []
  | Mutate document input :: t' => (document, input) :: mutations t'
  | _ :: t' => mutations t'
  end.

(** The values handed to [setStatus] in a trace, in order. *)
Fixpoint statusUpdates (t : list Call) : list StatusType :=
  match t with
  | [] => []
  | SetStatus s :: t' => s :: statusUpdates t'
  | _ :: t' => statusUpdates t'
  end.

(** ** Hooks *)

(** [useLazyQuery(QUERY_TRANSACTIONS, { fetchPolicy: "network-only" })] *)
Definition queryTransactions : M unit := call (QueryTransactions "network-only").

(** [queryWallet(client, fetchPolicy)] of [../../graphql/query]. *)
Definition queryWallet (fetchPolicy : string) : M unit := call (QueryWallet fetchPolicy).

(** The result of [useMutation(document, { update })]. *)
Record MutationHook : Type := {
  document : Mutation;
  update : option (M unit)
}.

Definition lnPay : MutationHook :=
  {| document := LN_PAY; update := Some queryTransactions |}.

Definition lnNoAmountPay : MutationHook :=
  {| document := LN_NO_AMOUNT_PAY; update := None |}.

Definition intraLedgerPay : MutationHook :=
  {| document := INTRA_LEDGER_PAY; update := Some queryTransactions |}.

Definition onchainPay : MutationHook :=
  {| document := ONCHAIN_PAY; update := Some queryTransactions |}.

(** [await hook({ variables: { input } })]: the request is sent, the client
    may run the hook's [update], and the promise settles as the backend
    replied. *)
Definition await (hook : MutationHook) (input : Input) (reply : Reply)
    : M FetchResult :=
  call (Mutate (document hook) input) ;;
  (if cacheUpdated reply then
     match update hook with
     | Some callback => callback
     | None => ret tt
     end
   else ret tt) ;;
  match settled reply with
  | Fulfilled result => ret result
  | Rejected error => throw error
  end.

(** [data.<field>.status]: reading the status raises a [TypeError] when
    [data] or [data.<field>] is [null]; [None] stands for either. The
    description of the error is the JavaScript engine's and names the
    property it could not read; the text here is one such wording, and no
    statement depends on it. *)
Definition payloadOf (field : string) (result : FetchResult) : M Payload :=
  match data result with
  | Some payload => ret payload
  | None => throw (TypeError ("Cannot read property '" ++ field ++ "' of null"))
  end.

(** [errors ? errors.map((error) => ({ message: error.message })) : payload.errors] *)
Definition errsOf (result : FetchResult) (payload : Payload) : list ErrorMessage :=
  match errors result with
  | Some errors => map (fun error => {| message := gql_message error |}) errors
  | None => payload_errors payload
  end.

(** ** Route parameters and what the screen imports *)

(** [route.params] *)
Record Params : Type := {
  address : string;
  amountless : bool;
  invoice : string;
  memo : string;
  paymentType : string;
  primaryCurrency : CurrencyType;
  referenceAmount : MoneyAmount;
  sameNode : bool;
  username : string
}.

(** The argument of the [useFee] hook. *)
Record FeeQuery : Type := {
  fee_address : string;
  fee_amountless : bool;
  fee_invoice : string;
  fee_paymentType : string;
  fee_sameNode : bool;
  fee_paymentSatAmount : Z;
  fee_btcPrice : Z;
  fee_primaryCurrency : CurrencyType
}.

(** The result of [useFee]; the screen reads [fee.value], [null] while no
    fee is known. *)
Record Fee : Type := {
  fee_value : option Z;
  fee_text : string
}.

(** Imports and hooks whose code is outside the sources: they are taken as
    given, whatever they compute. *)
Record Env : Type := {
  translate : Translate;
  UsernameValidation_isValid : string -> bool;
  textCurrencyFormatting : Z -> Z -> CurrencyType -> string;
  useBTCPrice : Z;
  useCurrencyConverter : CurrencyType -> CurrencyType -> Z -> Z;
  useFee : FeeQuery -> Fee;
  balanceBtc : Z
}.

(** ** Arithmetic on amounts

    A JavaScript number is an IEEE 754 binary64 value: 53 bits of mantissa,
    infinities at exponent 1024. *)
Definition number (z : Z) : spec_float := binary_normalize 53 1024 z 0 false.

(** The integer a double holds. An infinity, which a sum of integers
    reaches only by overflow, is kept as [2 ^ 1024] with its sign: it
    compares above (below) every finite double, as the infinity does. *)
Definition integerOf (x : spec_float) : Z :=
  match x with
  | S754_zero _ => 0
  | S754_finite s m e => cond_Zopp s (Z.shiftl (Zpos m) e)
  | S754_infinity s => cond_Zopp s (2 ^ 1024)
  | S754_nan => 0
  end.

(** [a + b] on numbers: the exact sum rounded to the nearest double, ties
    to even. *)
Definition plus (a b : Z) : Z := integerOf (SFadd 53 1024 (number a) (number b)).

(** [convertCurrency]: the converter table is consulted only when the two
    currencies differ. *)
Definition convertCurrency
    (currencyConverter : CurrencyType -> CurrencyType -> Z -> Z)
    (amount : Z) (from to : CurrencyType) : Z :=
  if CurrencyType_eqb from to then amount
  else currencyConverter from to amount.

(** The text shown for each line of the payment information component, and
    the rest of what is rendered. *)
Record PaymentConfirmationInformation : Type := {
  info_fee : Fee;
  info_destination : string;
  info_memo : string;
  info_primaryAmount : MoneyAmount;
  info_secondaryAmount : MoneyAmount;
  info_primaryTotalAmount : MoneyAmount;
  info_secondaryTotalAmount : MoneyAmount
}.

Record View : Type := {
  information : PaymentConfirmationInformation;
  indicator : list ErrorMessage * StatusType;
  errorText : option string;
  confirmationText : option (string * string);
  buttonLoading : bool;
  buttonTitle : string
}.

(** [s.substr(-n)]: the last [n] characters, all of [s] when it is shorter. *)
Definition substrFromEnd (n : nat) (s : string) : string :=
  substring (String.length s - n) n s.

Definition newline : string := String (ascii_of_nat 10) EmptyString.

Section Screen.
Variable env : Env.
Variable params : Params.

Definition btcPrice : Z := useBTCPrice env.
Definition currencyConverter := useCurrencyConverter env.

Definition paymentSatAmount : Z :=
  convertCurrency currencyConverter
    (value (referenceAmount params)) (currency (referenceAmount params)) BTC.

Definition fee : Fee :=
  useFee env
    {| fee_address := address params;
       fee_amountless := amountless params;
       fee_invoice := invoice params;
       fee_paymentType := paymentType params;
       fee_sameNode := sameNode params;
       fee_paymentSatAmount := paymentSatAmount;
       fee_btcPrice := btcPrice;
       fee_primaryCurrency := primaryCurrency params |}.

Definition handlePaymentReturn (status : string) (errors : list ErrorMessage)
    : M unit :=
  if status =? "SUCCESS" then
    queryWallet "network-only" ;;
    setStatus Status.SUCCESS
  else if status =? "PENDING" then
    setStatus Status.PENDING
  else
    setStatus Status.ERROR ;;
    setErrs errors.

Definition handlePaymentError (error : JsError) : M unit :=
  call (ConsoleLog (LogError error "error loop")) ;;
  setStatus Status.ERROR ;;
  setErrs [ {| message := "an error occured. try again later" ++ newline
                           ++ toString error |} ].

Definition payUsername (reply : Reply) : M unit :=
  if negb (UsernameValidation_isValid env (username params)) then
    setStatus Status.ERROR ;;
    setErrs [ {| message := translate env "SendBitcoinScreen.invalidUsername" [] |} ]
  else
    setErrs [] ;;
    setStatus Status.LOADING ;;
    tryCatch
      (result <- await intraLedgerPay
                   (IntraLedgerPaymentSendInput
                      (username params) paymentSatAmount (memo params))
                   reply ;;
       payload <- payloadOf "intraLedgerPaymentSend" result ;;
       let status := payload_status payload in
       let errs := errsOf result payload in
       handlePaymentReturn status errs)
      (fun err => handlePaymentError err).

Definition payLightning (reply : Reply) : M unit :=
  setErrs [] ;;
  setStatus Status.LOADING ;;
  tryCatch
    (result <- await lnPay
                 (LnInvoicePaymentInput (invoice params) (memo params))
                 reply ;;
     payload <- payloadOf "lnInvoicePaymentSend" result ;;
     let status := payload_status payload in
     let errs := errsOf result payload in
     handlePaymentReturn status errs)
    (fun err => handlePaymentError err).

Definition payAmountlessLightning (reply : Reply) : M unit :=
  if (paymentSatAmount =? 0)%Z then
    setStatus Status.ERROR ;;
    setErrs [ {| message := translate env "SendBitcoinScreen.noAmount" [] |} ]
  else
    setErrs [] ;;
    setStatus Status.LOADING ;;
    tryCatch
      (result <- await lnNoAmountPay
                   (LnNoAmountInvoicePaymentInput
                      (invoice params) paymentSatAmount (memo params))
                   reply ;;
       payload <- payloadOf "lnNoAmountInvoicePaymentSend" result ;;
       let status := payload_status payload in
       let errs := errsOf result payload in
       handlePaymentReturn status errs)
      (fun err => handlePaymentError err).

Definition payOnchain (reply : Reply) : M unit :=
  if (paymentSatAmount =? 0)%Z then
    setStatus Status.ERROR ;;
    setErrs [ {| message := translate env "SendBitcoinScreen.noAmount" [] |} ]
  else
    setErrs [] ;;
    setStatus Status.LOADING ;;
    tryCatch
      (call (ConsoleLog
               (LogOnchain "AAAA" (address params) paymentSatAmount (memo params))) ;;
       result <- await onchainPay
                   (OnChainPaymentSendInput
                      (address params) paymentSatAmount (memo params))
                   reply ;;
       payload <- payloadOf "onChainPaymentSend" result ;;
       let status := payload_status payload in
       let errs := errsOf result payload in
       handlePaymentReturn status errs)
      (fun err => handlePaymentError err).

Definition pay (reply : Reply) : M unit :=
  if paymentType params =? "username" then
    payUsername reply
  else if paymentType params =? "lightning" then
    if amountless params then payAmountlessLightning reply
    else payLightning reply
  else if paymentType params =? "onchain" then
    payOnchain reply
  else ret tt.

(** The [useEffect] that runs after a render in which [status] changed. *)
Definition statusEffect (status : StatusType) : M unit :=
  if (status =? "loading") || (status =? "idle") then ret tt
  else
    let notificationType : option string := None in
    let notificationType :=
      if (status =? Status.PENDING) || (status =? Status.ERROR)
      then Some "notificationError" else notificationType in
    let notificationType :=
      if status =? Status.SUCCESS
      then Some "notificationSuccess" else notificationType in
    let optionsHaptic :=
      {| enableVibrateFallback := true; ignoreAndroidSystemSettings := false |} in
    call (HapticTrigger notificationType optionsHaptic).

Definition totalAmount : Z :=
  match fee_value fee with
  | None => paymentSatAmount
  | Some feeValue => plus paymentSatAmount feeValue
  end.

Definition balance : Z := balanceBtc env.

Definition errorMessage : string :=
  if (totalAmount >? balance)%Z then
    translate env "SendBitcoinConfirmationScreen.totalExceed"
      [("balance",
        textCurrencyFormatting env balance btcPrice (primaryCurrency params))]
  else "".

Definition destination : string :=
  if paymentType params =? "username" then username params
  else if paymentType params =? "lightning" then
    substring 0 18 (invoice params) ++ "..." ++ substrFromEnd 18 (invoice params)
  else if paymentType params =? "onchain" then address params
  else "".

Definition primaryAmount : MoneyAmount :=
  {| value := convertCurrency currencyConverter
                (value (referenceAmount params))
                (currency (referenceAmount params))
                (primaryCurrency params);
     currency := primaryCurrency params |}.

Definition primaryTotalAmount : MoneyAmount :=
  {| value := convertCurrency currencyConverter totalAmount BTC
                (primaryCurrency params);
     currency := primaryCurrency params |}.

Definition secondaryCurrency : CurrencyType :=
  if CurrencyType_eqb (primaryCurrency params) BTC then USD else BTC.

Definition secondaryAmount : MoneyAmount :=
  {| value := convertCurrency currencyConverter
                (value (referenceAmount params))
                (currency (referenceAmount params))
                secondaryCurrency;
     currency := secondaryCurrency |}.

Definition secondaryTotalAmount : MoneyAmount :=
  {| value := convertCurrency currencyConverter totalAmount BTC secondaryCurrency;
     currency := secondaryCurrency |}.

(** Has the payment reached one of the three closing statuses? *)
Definition isSettled (status : StatusType) : bool :=
  (status =? Status.SUCCESS) || (status =? Status.PENDING)
  || (status =? Status.ERROR).

(** The button's [onPress]. *)
Definition onPress (reply : Reply) : M unit :=
  status <- getStatus ;;
  if isSettled status then
    call (NavigationPop 2)
  else if (0 <? String.length errorMessage)%nat then
    call (NavigationPop 1)
  else
    pay reply.

(** What the screen renders in a given state. *)
Definition render (st : State) : View :=
  {| information :=
       {| info_fee := fee;
          info_destination := destination;
          info_memo := memo params;
          info_primaryAmount := primaryAmount;
          info_secondaryAmount := secondaryAmount;
          info_primaryTotalAmount := primaryTotalAmount;
          info_secondaryTotalAmount := secondaryTotalAmount |};
     indicator := (errs st, status st);
     errorText :=
       if negb ((status st =? Status.SUCCESS) || (status st =? Status.PENDING))
          && (0 <? String.length errorMessage)%nat
       then Some errorMessage else None;
     confirmationText :=
       if status st =? "idle" then
         Some (translate env "SendBitcoinConfirmationScreen.confirmPayment?" [],
               translate env "SendBitcoinConfirmationScreen.paymentFinal" [])
       else None;
     buttonLoading := status st =? "loading";
     buttonTitle :=
       if isSettled (status st) then translate env "common.close" []
       else if (0 <? String.length errorMessage)%nat
       then translate env "common.cancel" []
       else translate env "SendBitcoinConfirmationScreen.confirmPayment" [] |}.

End Screen.

End SendBitcoinConfirmationScreen.

(** * Specification-level definitions used by the statements *)

Module Spec.
Import SendBitcoinConfirmationScreen.

(** The five members of the [Status] object. *)
Definition statusValues : list StatusType :=
  [Status.IDLE; Status.LOADING; Status.PENDING; Status.SUCCESS; Status.ERROR].

Definition isStatusValue (s : StatusType) : bool :=
  existsb (String.eqb s) statusValues.

(** The payment dispatch read as a bare lookup on the payment type, one
    mutation per known type, as the description of the screen words it. *)
Definition staticLookup (env : Env) (params : Params) : list (Mutation * Input) :=
  let amount := paymentSatAmount env params in
  if paymentType params =? "username" then
    [(INTRA_LEDGER_PAY,
      IntraLedgerPaymentSendInput (username params) amount (memo params))]
  else if paymentType params =? "lightning" then
    if amountless params then
      [(LN_NO_AMOUNT_PAY,
        LnNoAmountInvoicePaymentInput (invoice params) amount (memo params))]
    else
      [(LN_PAY, LnInvoicePaymentInput (invoice params) (memo params))]
  else if paymentType params =? "onchain" then
    [(ONCHAIN_PAY,
      OnChainPaymentSendInput (address params) amount (memo params))]
  else [].

(** Does the payment pass the local check of its path? *)
Definition precondition (env : Env) (params : Params) : bool :=
  if paymentType params =? "username" then
    UsernameValidation_isValid env (username params)
  else if paymentType params =? "lightning" then
    if amountless params then negb (paymentSatAmount env params =? 0)%Z
    else true
  else if paymentType params =? "onchain" then
    negb (paymentSatAmount env params =? 0)%Z
  else true.

(** The same lookup behind the local checks. *)
Definition guardedLookup (env : Env) (params : Params) : list (Mutation * Input) :=
  if precondition env params then staticLookup env params else [].

(** What the screen can be asked to do. *)
Inductive Operation : Type :=
| Press (reply : Reply)
| Pay (reply : Reply)
| PayUsername (reply : Reply)
| PayLightning (reply : Reply)
| PayAmountlessLightning (reply : Reply)
| PayOnchain (reply : Reply)
| HandlePaymentReturn (status : string) (errors : list ErrorMessage)
| HandlePaymentError (error : JsError)
| StatusEffect.

Definition perform (env : Env) (params : Params) (op : Operation) : M unit :=
  match op with
  | Press reply => onPress env params reply
  | Pay reply => pay env params reply
  | PayUsername reply => payUsername env params reply
  | PayLightning reply => payLightning params reply
  | PayAmountlessLightning reply => payAmountlessLightning env params reply
  | PayOnchain reply => payOnchain env params reply
  | HandlePaymentReturn status errors => handlePaymentReturn status errors
  | HandlePaymentError error => handlePaymentError error
  | StatusEffect => bind getStatus statusEffect
  end.

(** States the screen can be in: the initial one, and any state an
    operation leaves behind. *)
Inductive Reachable (env : Env) (params : Params) : State -> Prop :=
| Reachable_initial : Reachable env params initialState
| Reachable_step st op :
    Reachable env params st ->
    Reachable env params (finalState (perform env params op st)).

(** Pressing the button once per reply of the list. *)
Fixpoint pressAll (env : Env) (params : Params) (replies : list Reply) : M unit :=
  match replies with
  | [] => ret tt
  | reply :: rest =>
      bind (onPress env params reply) (fun _ => pressAll env params rest)
  end.

(** The state the catch clause leaves behind. *)
Definition failedState (error : JsError) : State :=
  {| errs := [ {| message := "an error occured. try again later" ++ newline
                              ++ toString error |} ];
     status := Status.ERROR |}.

(** The calls every path makes before the request leaves. *)
Definition preamble : list Call := [SetErrs []; SetStatus Status.LOADING].

(** The state the screen is in while the request is in flight. *)
Definition loadingState : State := {| errs := []; status := Status.LOADING |}.

(** The calls of the catch clause. *)
Definition catchCalls (error : JsError) : list Call :=
  [ConsoleLog (LogError error "error loop");
   SetStatus Status.ERROR;
   SetErrs (errs (failedState error))].

(** The state a failed local check leaves behind, and the calls it makes. *)
Definition refusedState (text : string) : State :=
  {| errs := [ {| message := text |} ]; status := Status.ERROR |}.

Definition refusalCalls (text : string) : list Call :=
  [SetStatus Status.ERROR; SetErrs [ {| message := text |} ]].

(** The error list a fulfilled response makes visible: the messages of the
    top-level errors when the response carries them, the payload's
    otherwise. *)
Definition visibleErrors (topLevel : option (list GraphQLError)) (payload : Payload)
    : list ErrorMessage :=
  match topLevel with
  | Some errors => map (fun error => {| message := gql_message error |}) errors
  | None => payload_errors payload
  end.

(** A handler changes the status only to members of [Status], and leaves a
    member behind when it starts from one. *)
Definition keepsStatus {A} (c : M A) : Prop :=
  forall st,
    forallb isStatusValue (statusUpdates (trace (c st))) = true /\
    (isStatusValue (status st) = true ->
     isStatusValue (status (finalState (c st))) = true).

(** The calls of the hook's [update] callback, when the client ran it. *)
Definition updateCalls (hook : MutationHook) (reply : Reply) : list Call :=
  if cacheUpdated reply then
    match update hook with
    | Some _ => [QueryTransactions "network-only"]
    | None => []
    end
  else [].

End Spec.

(** * A concrete wallet, for the examples *)

Module Sample.
Import SendBitcoinConfirmationScreen.

Definition env : Env :=
  {| translate := fun key _ => key;
     UsernameValidation_isValid := fun name => (3 <=? String.length name)%nat;
     textCurrencyFormatting := fun _ _ _ => "1000 sats";
     useBTCPrice := 50000;
     useCurrencyConverter :=
       fun from to amount =>
         match from, to with
         | USD, BTC => (amount * 2000)%Z
         | BTC, USD => (amount / 2000)%Z
         | _, _ => amount
         end;
     useFee := fun _ => {| fee_value := Some 10%Z; fee_text := "10" |};
     balanceBtc := 1000 |}.

Definition payment (type name : string) (sats : Z) (noAmount : bool) : Params :=
  {| address := "bc1qexampleaddress";
     amountless := noAmount;
     invoice := "lnbc1exampleinvoiceexampleinvoiceexampleinvoice";
     memo := "coffee";
     paymentType := type;
     primaryCurrency := BTC;
     referenceAmount := {| value := sats; currency := BTC |};
     sameNode := false;
     username := name |}.

Definition success : Reply :=
  {| cacheUpdated := true;
     settled := Fulfilled
       {| data := Some {| payload_errors := []; payload_status := "SUCCESS" |};
          errors := None |} |}.

Definition failure : Reply :=
  {| cacheUpdated := false;
     settled := Fulfilled
       {| data := Some {| payload_errors := [ {| message := "no route" |} ];
                          payload_status := "FAILURE" |};
          errors := None |} |}.

Definition networkDown : Reply :=
  {| cacheUpdated := false; settled := Rejected (Rejection "Error: Network request failed") |}.

Definition stateWith (s : StatusType) : State := {| errs := []; status := s |}.

Definition toAlice : Params := payment "username" "alice" 500 false.
Definition toNobody : Params := payment "username" "al" 500 false.
Definition invoiceWithAmount : Params := payment "lightning" "" 500 false.
Definition invoiceWithoutAmount : Params := payment "lightning" "" 500 true.
Definition onchainNothing : Params := payment "onchain" "" 0 false.
Definition onchainTooMuch : Params := payment "onchain" "" 5000 false.

End Sample.


(** * Further notions used by the statements *)

Module Flow.
Import SendBitcoinConfirmationScreen.

(** Is the payment type one of the three the dispatch knows? *)
Definition knownPaymentType (params : Params) : bool :=
  (paymentType params =? "username") || (paymentType params =? "lightning")
  || (paymentType params =? "onchain").

(** The status string a reply delivers, when it delivers one. *)
Definition replyStatus (reply : Reply) : option string :=
  match settled reply with
  | Fulfilled result =>
      match data result with
      | Some payload => Some (payload_status payload)
      | None => None
      end
  | Rejected _ => None
  end.

(** The amount a mutation input carries; the input of an invoice with an
    amount carries none. *)
Definition inputAmount (input : Input) : option Z :=
  match input with
  | LnInvoicePaymentInput _ _ => None
  | LnNoAmountInvoicePaymentInput _ amount _ => Some amount
  | IntraLedgerPaymentSendInput _ amount _ => Some amount
  | OnChainPaymentSendInput _ amount _ => Some amount
  end.

(** What a call does to the two state cells: only the setters change them. *)
Definition applyCall (st : State) (c : Call) : State :=
  match c with
  | SetStatus s => {| errs := errs st; status := s |}
  | SetErrs l => {| errs := l; status := status st |}
  | _ => st
  end.

Definition applyCalls (st : State) (calls : list Call) : State :=
  fold_left applyCall calls st.

(** States the screen can draw: the initial one, and the state after any
    number of the calls of an operation, which takes in the states the
    screen is in while a request is in flight. *)
Inductive Rendered (env : Env) (params : Params) : State -> Prop :=
| Rendered_initial : Rendered env params initialState
| Rendered_during st op n :
    Rendered env params st ->
    Rendered env params
      (applyCalls st (firstn n (trace (Spec.perform env params op st)))).

(** A handler whose final state is its setter calls applied in order. *)
Definition tracksState {A} (c : M A) : Prop :=
  forall st, finalState (c st) = applyCalls st (trace (c st)).


End Flow.

(** More concrete inputs, for the examples. *)
Module Scenario.
Import SendBitcoinConfirmationScreen.

Definition unlock : AuthenticationScreen.Params :=
  {| AuthenticationScreen.screenPurpose := AuthenticationScreen.Authenticate;
     AuthenticationScreen.isPinEnabled := true |}.

Definition setUp : AuthenticationScreen.Params :=
  {| AuthenticationScreen.screenPurpose := AuthenticationScreen.TurnOnAuthentication;
     AuthenticationScreen.isPinEnabled := true |}.

Definition label : Translate := fun key _ => key.

Definition shortInvoice : Params :=
  {| address := "";
     amountless := false;
     invoice := "lnbc1short";
     memo := "";
     paymentType := "lightning";
     primaryCurrency := USD;
     referenceAmount := {| value := 300; currency := USD |};
     sameNode := true;
     username := "" |}.

Definition pendingReply : Reply :=
  {| cacheUpdated := true;
     settled := Fulfilled
       {| data := Some {| payload_errors := [ {| message := "stale" |} ];
                          payload_status := "PENDING" |};
          errors := Some [ {| gql_message := "partial"; gql_path := ["me"] |} ] |} |}.

Definition staleState : State :=
  {| errs := [ {| message := "earlier failure" |} ]; status := Status.IDLE |}.

(** A wallet whose converter rounds down: three cents to the satoshi. *)
Definition coarseEnv : Env :=
  {| translate := label;
     UsernameValidation_isValid := fun _ => true;
     textCurrencyFormatting := fun _ _ _ => "";
     useBTCPrice := 1;
     useCurrencyConverter :=
       fun from to amount =>
         match from, to with
         | USD, BTC => (amount / 3)%Z
         | BTC, USD => (amount * 3)%Z
         | _, _ => amount
         end;
     useFee := fun _ => {| fee_value := None; fee_text := "" |};
     balanceBtc := 100 |}.

(** A wallet holding [2 ^ 53] satoshis, with a fee of one satoshi. *)
Definition wholeLedgerEnv : Env :=
  {| translate := label;
     UsernameValidation_isValid := fun _ => true;
     textCurrencyFormatting := fun _ _ _ => "";
     useBTCPrice := 1;
     useCurrencyConverter := fun _ _ amount => amount;
     useFee := fun _ => {| fee_value := Some 1%Z; fee_text := "1" |};
     balanceBtc := 2 ^ 53 |}.

Definition wholeLedger : Params :=
  {| address := "bc1qexampleaddress";
     amountless := false;
     invoice := "";
     memo := "";
     paymentType := "onchain";
     primaryCurrency := BTC;
     referenceAmount := {| value := 2 ^ 53; currency := BTC |};
     sameNode := false;
     username := "" |}.

(** The sample wallet with a translation table of empty entries. *)
Definition muteEnv : Env :=
  {| translate := fun _ _ => "";
     UsernameValidation_isValid := UsernameValidation_isValid Sample.env;
     textCurrencyFormatting := textCurrencyFormatting Sample.env;
     useBTCPrice := useBTCPrice Sample.env;
     useCurrencyConverter := useCurrencyConverter Sample.env;
     useFee := useFee Sample.env;
     balanceBtc := balanceBtc Sample.env |}.

Definition twoCentsOnchain : Params :=
  {| address := "bc1qexampleaddress";
     amountless := false;
     invoice := "";
     memo := "";
     paymentType := "onchain";
     primaryCurrency := USD;
     referenceAmount := {| value := 2; currency := USD |};
     sameNode := false;
     username := "" |}.

End Scenario.

(** * Properties *)

Import SendBitcoinConfirmationScreen.
Import Spec.
Local Open Scope handler_scope.

(** ** Reasoning about runs *)

Ltac run_handler :=
  cbv [payUsername payLightning payAmountlessLightning payOnchain pay onPress
       handlePaymentReturn handlePaymentError await payloadOf errsOf
       tryCatch bind ret throw call setStatus setErrs getStatus
       queryWallet queryTransactions
       lnPay lnNoAmountPay intraLedgerPay onchainPay
       document update cacheUpdated settled data errors
       completion finalState trace fst snd mutations statusUpdates
       updateCalls failedState preamble catchCalls refusedState refusalCalls
       loadingState visibleErrors app errs status negb].

Ltac split_if :=
  match goal with
  | |- context [if ?b then _ else _] => destruct b eqn:?
  end.

Ltac split_reply reply :=
  let updated := fresh "updated" in
  let payload := fresh "payload" in
  let topLevel := fresh "topLevel" in
  let error := fresh "error" in
  destruct reply as [updated [[[payload|] topLevel]|error]].

Lemma statusUpdates_app (t1 t2 : list Call) :
  statusUpdates (t1 ++ t2) = statusUpdates t1 ++ statusUpdates t2.
Proof.
  induction t1 as [|c t1 IH]; [reflexivity|].
  destruct c; cbn; rewrite ?IH; reflexivity.
Qed.

(** The status invariant goes through every combinator of the monad. *)
Lemma keeps_ret {A} (a : A) : keepsStatus (ret a).
Proof. intros st. split; [reflexivity | trivial]. Qed.

Lemma keeps_throw {A} (e : JsError) : keepsStatus (@throw A e).
Proof. intros st. split; [reflexivity | trivial]. Qed.

Lemma keeps_bind {A B} (c : M A) (k : A -> M B) :
  keepsStatus c -> (forall a, keepsStatus (k a)) -> keepsStatus (bind c k).
Proof.
  intros Hc Hk st. unfold bind.
  specialize (Hc st). destruct (c st) as [[[a|e] st1] t1]; cbn in *.
  - specialize (Hk a st1). destruct (k a st1) as [[r st2] t2]; cbn in *.
    rewrite statusUpdates_app, forallb_app.
    destruct Hc as [Hc1 Hc2], Hk as [Hk1 Hk2].
    split; [rewrite Hc1, Hk1; reflexivity | auto].
  - exact Hc.
Qed.

Lemma keeps_tryCatch {A} (body : M A) (handler : JsError -> M A) :
  keepsStatus body -> (forall e, keepsStatus (handler e)) ->
  keepsStatus (tryCatch body handler).
Proof.
  intros Hb Hh st. unfold tryCatch.
  specialize (Hb st). destruct (body st) as [[[a|e] st1] t1]; cbn in *.
  - exact Hb.
  - specialize (Hh e st1). destruct (handler e st1) as [[r st2] t2]; cbn in *.
    rewrite statusUpdates_app, forallb_app.
    destruct Hb as [Hb1 Hb2], Hh as [Hh1 Hh2].
    split; [rewrite Hb1, Hh1; reflexivity | auto].
Qed.

Lemma keeps_call (c : Call) :
  forallb isStatusValue (statusUpdates [c]) = true -> keepsStatus (call c).
Proof. intros H st. split; [exact H | trivial]. Qed.

Lemma keeps_setStatus (s : StatusType) :
  isStatusValue s = true -> keepsStatus (setStatus s).
Proof.
  intros H st. split.
  - change (forallb isStatusValue [s] = true). cbn [forallb].
    rewrite H. reflexivity.
  - intros _. exact H.
Qed.

Lemma keeps_setErrs (l : list ErrorMessage) : keepsStatus (setErrs l).
Proof. intros st. split; [reflexivity | trivial]. Qed.

Lemma keeps_getStatus : keepsStatus getStatus.
Proof. intros st. split; [reflexivity | trivial]. Qed.

Lemma keeps_if {A} (b : bool) (c1 c2 : M A) :
  keepsStatus c1 -> keepsStatus c2 -> keepsStatus (if b then c1 else c2).
Proof. destruct b; trivial. Qed.

Create HintDb keeps.
#[local] Hint Resolve keeps_ret keeps_throw keeps_bind keeps_tryCatch keeps_setErrs
  keeps_getStatus keeps_if : keeps.
#[local] Hint Extern 1 (keepsStatus (setStatus _)) =>
  apply keeps_setStatus; reflexivity : keeps.
#[local] Hint Extern 1 (keepsStatus (call _)) =>
  apply keeps_call; reflexivity : keeps.

Lemma keeps_handlePaymentReturn status errors :
  keepsStatus (handlePaymentReturn status errors).
Proof. unfold handlePaymentReturn, queryWallet. auto 10 with keeps. Qed.

Lemma keeps_handlePaymentError error : keepsStatus (handlePaymentError error).
Proof. unfold handlePaymentError. auto 10 with keeps. Qed.

Lemma keeps_await hook input reply :
  (forall callback, update hook = Some callback -> keepsStatus callback) ->
  keepsStatus (await hook input reply).
Proof.
  intros Hupdate. unfold await.
  apply keeps_bind; [auto with keeps|]. intros _.
  apply keeps_bind.
  - destruct (cacheUpdated reply); [|auto with keeps].
    destruct (update hook) as [callback|] eqn:E; auto with keeps.
  - intros _. destruct (settled reply); auto with keeps.
Qed.

Lemma keeps_payloadOf field result : keepsStatus (payloadOf field result).
Proof. unfold payloadOf. destruct (data result); auto with keeps. Qed.

Lemma keeps_queryTransactions : keepsStatus queryTransactions.
Proof. unfold queryTransactions. auto with keeps. Qed.

#[local] Hint Resolve keeps_handlePaymentReturn keeps_handlePaymentError
  keeps_payloadOf keeps_queryTransactions : keeps.
#[local] Hint Extern 2 (keepsStatus (await _ _ _)) =>
  apply keeps_await; cbn; intros ? [= <-]; auto with keeps : keeps.
#[local] Hint Extern 2 (keepsStatus (await lnNoAmountPay _ _)) =>
  apply keeps_await; cbn; discriminate : keeps.

Lemma keeps_payUsername env params reply :
  keepsStatus (payUsername env params reply).
Proof. unfold payUsername. auto 12 with keeps. Qed.

Lemma keeps_payLightning params reply : keepsStatus (payLightning params reply).
Proof. unfold payLightning. auto 12 with keeps. Qed.

Lemma keeps_payAmountlessLightning env params reply :
  keepsStatus (payAmountlessLightning env params reply).
Proof. unfold payAmountlessLightning. auto 12 with keeps. Qed.

Lemma keeps_payOnchain env params reply :
  keepsStatus (payOnchain env params reply).
Proof. unfold payOnchain. auto 12 with keeps. Qed.

#[local] Hint Resolve keeps_payUsername keeps_payLightning
  keeps_payAmountlessLightning keeps_payOnchain : keeps.

Lemma keeps_pay env params reply : keepsStatus (pay env params reply).
Proof. unfold pay. auto 10 with keeps. Qed.

#[local] Hint Resolve keeps_pay : keeps.

Lemma keeps_onPress env params reply : keepsStatus (onPress env params reply).
Proof. unfold onPress. auto 10 with keeps. Qed.

Lemma keeps_statusEffect status : keepsStatus (statusEffect status).
Proof. unfold statusEffect. auto 10 with keeps. Qed.

#[local] Hint Resolve keeps_onPress keeps_statusEffect : keeps.

Lemma keeps_perform env params op : keepsStatus (perform env params op).
Proof. destruct op; cbn [perform]; auto with keeps. Qed.

(** ** Currency conversion *)

(** C10: [convertCurrency] returns the amount unchanged when the source and
    the target currency are the same, and the converter table plays no part
    in it: any two tables give the same result. *)
Theorem convertCurrency_same_currency :
  forall converter amount c,
    convertCurrency converter amount c c = amount /\
    forall converter',
      convertCurrency converter' amount c c = convertCurrency converter amount c c.
Proof.
  intros converter amount c.
  assert (same : forall table, convertCurrency table amount c c = amount).
  { intros table. unfold convertCurrency. destruct c; reflexivity. }
  split; [apply same|].
  intros converter'. rewrite !same. reflexivity.
Qed.

(** ** Payment dispatch *)

(** C1, as worded, fails: an on-chain payment of zero satoshis is refused by
    the local check of its path, so [pay] sends no mutation where the bare
    lookup names [onChainPaymentSend]. *)
Lemma pay_static_lookup_counterexample :
  paymentType Sample.onchainNothing = "onchain" /\
  staticLookup Sample.env Sample.onchainNothing
    = [(ONCHAIN_PAY, OnChainPaymentSendInput "bc1qexampleaddress" 0 "coffee")] /\
  mutations (trace (pay Sample.env Sample.onchainNothing Sample.success initialState))
    = [].
Proof. split; [reflexivity|]. split; reflexivity. Qed.

(** C1 (amended): whatever the backend replies and whatever state the screen
    is in, the mutations [pay] sends are those of the lookup on the payment
    type behind the local check of the path: one mutation, with the inputs
    of its path, when the payment type is known and the check passes, none
    otherwise. *)
Theorem pay_dispatch :
  forall env params reply st,
    mutations (trace (pay env params reply st)) = guardedLookup env params /\
    (length (guardedLookup env params) <= 1)%nat.
Proof.
  intros env params reply st. split.
  2: { unfold guardedLookup, staticLookup.
       repeat split_if; cbn [length]; lia. }
  unfold guardedLookup, precondition, staticLookup, pay,
    payUsername, payAmountlessLightning, payOnchain.
  destruct (UsernameValidation_isValid env (username params)) eqn:valid;
  destruct (paymentSatAmount env params =? 0)%Z eqn:zero;
  cbn [negb];
  split_reply reply;
  repeat split_if; run_handler; repeat split_if; try reflexivity.
Qed.

(** ** Rejected mutations *)

(** C2: on each of the four paths a rejected mutation is caught where it was
    awaited; the handler completes normally, the status is [error] and the
    error list holds one message that ends with the rendering of what was
    thrown. Nothing else happens after the throw than the calls of the catch
    clause. *)
Theorem thrown_mutation_is_caught :
  forall env params updated error st,
    let reply := {| cacheUpdated := updated; settled := Rejected error |} in
    let amount := paymentSatAmount env params in
    (UsernameValidation_isValid env (username params) = true ->
     payUsername env params reply st =
       (Normal tt, failedState error,
        preamble
        ++ [Mutate INTRA_LEDGER_PAY
              (IntraLedgerPaymentSendInput (username params) amount (memo params))]
        ++ updateCalls intraLedgerPay reply
        ++ catchCalls error))
    /\ payLightning params reply st =
       (Normal tt, failedState error,
        preamble
        ++ [Mutate LN_PAY (LnInvoicePaymentInput (invoice params) (memo params))]
        ++ updateCalls lnPay reply
        ++ catchCalls error)
    /\ (amount <> 0%Z ->
        payAmountlessLightning env params reply st =
          (Normal tt, failedState error,
           preamble
           ++ [Mutate LN_NO_AMOUNT_PAY
                 (LnNoAmountInvoicePaymentInput (invoice params) amount (memo params))]
           ++ updateCalls lnNoAmountPay reply
           ++ catchCalls error))
    /\ (amount <> 0%Z ->
        payOnchain env params reply st =
          (Normal tt, failedState error,
           preamble
           ++ [ConsoleLog (LogOnchain "AAAA" (address params) amount (memo params));
               Mutate ONCHAIN_PAY
                 (OnChainPaymentSendInput (address params) amount (memo params))]
           ++ updateCalls onchainPay reply
           ++ catchCalls error)).
Proof.
  intros env params updated error st reply amount.
  subst reply amount.
  repeat split.
  - intros valid. unfold payUsername. rewrite valid.
    run_handler. destruct updated; reflexivity.
  - run_handler. destruct updated; reflexivity.
  - intros nonzero. apply Z.eqb_neq in nonzero.
    unfold payAmountlessLightning. rewrite nonzero.
    run_handler. destruct updated; reflexivity.
  - intros nonzero. apply Z.eqb_neq in nonzero.
    unfold payOnchain. rewrite nonzero.
    run_handler. destruct updated; reflexivity.
Qed.

Lemma thrown_mutation_is_caught_witness :
  UsernameValidation_isValid Sample.env (username Sample.toAlice) = true /\
  paymentSatAmount Sample.env Sample.toAlice <> 0%Z /\
  finalState (payUsername Sample.env Sample.toAlice Sample.networkDown initialState)
    = failedState (Rejection "Error: Network request failed") /\
  finalState (payAmountlessLightning Sample.env Sample.toAlice Sample.networkDown
                initialState)
    = failedState (Rejection "Error: Network request failed") /\
  finalState (payOnchain Sample.env Sample.toAlice Sample.networkDown initialState)
    = failedState (Rejection "Error: Network request failed").
Proof.
  assert (valid : UsernameValidation_isValid Sample.env (username Sample.toAlice) = true)
    by reflexivity.
  assert (nonzero : paymentSatAmount Sample.env Sample.toAlice <> 0%Z)
    by (vm_compute; discriminate).
  destruct (thrown_mutation_is_caught Sample.env Sample.toAlice false
              (Rejection "Error: Network request failed") initialState)
    as [user [_ [amountless onchain]]].
  split; [exact valid|]. split; [exact nonzero|].
  unfold Sample.networkDown.
  rewrite (user valid), (amountless nonzero), (onchain nonzero).
  split; [reflexivity|]. split; reflexivity.
Defined.

(** ** Fulfilled mutations *)

(** What [handlePaymentReturn] does with each returned status. *)
Lemma handlePaymentReturn_run (returned : string) (visible : list ErrorMessage)
    (st : State) :
  handlePaymentReturn returned visible st =
    if returned =? "SUCCESS" then
      (Normal tt, {| errs := errs st; status := Status.SUCCESS |},
       [QueryWallet "network-only"; SetStatus Status.SUCCESS])
    else if returned =? "PENDING" then
      (Normal tt, {| errs := errs st; status := Status.PENDING |},
       [SetStatus Status.PENDING])
    else
      (Normal tt, {| errs := visible; status := Status.ERROR |},
       [SetStatus Status.ERROR; SetErrs visible]).
Proof. unfold handlePaymentReturn. repeat split_if; reflexivity. Qed.

(** C3: a response with a payload is handed to [handlePaymentReturn] on every
    path, with the payload's status and with the messages of the top-level
    errors when the response carries them, the payload's errors otherwise.
    [handlePaymentReturn] turns ["SUCCESS"] into status [success] after
    refreshing the wallet query, ["PENDING"] into [pending], and any other
    status into [error] with the errors it was given as the visible list. *)
Theorem payment_return_sets_status :
  forall env params updated payload topLevel st,
    let reply :=
      {| cacheUpdated := updated;
         settled := Fulfilled {| data := Some payload; errors := topLevel |} |} in
    let returned := payload_status payload in
    let visible := visibleErrors topLevel payload in
    let amount := paymentSatAmount env params in
    let handed (sent : list Call) :=
      (completion (handlePaymentReturn returned visible loadingState),
       finalState (handlePaymentReturn returned visible loadingState),
       preamble ++ sent
       ++ trace (handlePaymentReturn returned visible loadingState)) in
    (forall errors before,
       (returned = "SUCCESS" ->
        handlePaymentReturn returned errors before =
          (Normal tt, {| errs := errs before; status := Status.SUCCESS |},
           [QueryWallet "network-only"; SetStatus Status.SUCCESS])) /\
       (returned = "PENDING" ->
        handlePaymentReturn returned errors before =
          (Normal tt, {| errs := errs before; status := Status.PENDING |},
           [SetStatus Status.PENDING])) /\
       (returned <> "SUCCESS" -> returned <> "PENDING" ->
        handlePaymentReturn returned errors before =
          (Normal tt, {| errs := errors; status := Status.ERROR |},
           [SetStatus Status.ERROR; SetErrs errors])))
    /\ (UsernameValidation_isValid env (username params) = true ->
        payUsername env params reply st =
          handed (Mutate INTRA_LEDGER_PAY
                    (IntraLedgerPaymentSendInput (username params) amount (memo params))
                  :: updateCalls intraLedgerPay reply))
    /\ payLightning params reply st =
         handed (Mutate LN_PAY (LnInvoicePaymentInput (invoice params) (memo params))
                 :: updateCalls lnPay reply)
    /\ (amount <> 0%Z ->
        payAmountlessLightning env params reply st =
          handed (Mutate LN_NO_AMOUNT_PAY
                    (LnNoAmountInvoicePaymentInput (invoice params) amount (memo params))
                  :: updateCalls lnNoAmountPay reply))
    /\ (amount <> 0%Z ->
        payOnchain env params reply st =
          handed (ConsoleLog (LogOnchain "AAAA" (address params) amount (memo params))
                  :: Mutate ONCHAIN_PAY
                       (OnChainPaymentSendInput (address params) amount (memo params))
                  :: updateCalls onchainPay reply)).
Proof.
  intros env params updated payload topLevel st reply returned visible amount handed.
  subst handed reply amount. cbv beta.
  split; [|split; [|split; [|split]]].
  - intros errors before. rewrite handlePaymentReturn_run.
    split; [|split].
    + intros ->. reflexivity.
    + intros ->. reflexivity.
    + intros notSuccess notPending.
      apply String.eqb_neq in notSuccess, notPending.
      rewrite notSuccess, notPending. reflexivity.
  - intros valid. unfold payUsername. rewrite valid.
    rewrite handlePaymentReturn_run. subst returned visible.
    run_handler. destruct updated; repeat split_if; reflexivity.
  - rewrite handlePaymentReturn_run. subst returned visible.
    run_handler. destruct updated; repeat split_if; reflexivity.
  - intros nonzero. apply Z.eqb_neq in nonzero.
    unfold payAmountlessLightning. rewrite nonzero.
    rewrite handlePaymentReturn_run. subst returned visible.
    run_handler. destruct updated; repeat split_if; reflexivity.
  - intros nonzero. apply Z.eqb_neq in nonzero.
    unfold payOnchain. rewrite nonzero.
    rewrite handlePaymentReturn_run. subst returned visible.
    run_handler. destruct updated; repeat split_if; reflexivity.
Qed.

Lemma payment_return_sets_status_witness :
  UsernameValidation_isValid Sample.env (username Sample.toAlice) = true /\
  paymentSatAmount Sample.env Sample.toAlice <> 0%Z /\
  "FAILURE" <> "SUCCESS" /\ "FAILURE" <> "PENDING" /\
  finalState (payUsername Sample.env Sample.toAlice Sample.failure initialState)
    = {| errs := [ {| message := "no route" |} ]; status := Status.ERROR |} /\
  finalState (payAmountlessLightning Sample.env Sample.toAlice Sample.failure
                initialState)
    = {| errs := [ {| message := "no route" |} ]; status := Status.ERROR |} /\
  finalState (payOnchain Sample.env Sample.toAlice Sample.failure initialState)
    = {| errs := [ {| message := "no route" |} ]; status := Status.ERROR |} /\
  finalState (handlePaymentReturn "SUCCESS" [] initialState)
    = {| errs := []; status := Status.SUCCESS |} /\
  finalState (handlePaymentReturn "PENDING" [] initialState)
    = {| errs := []; status := Status.PENDING |}.
Proof.
  assert (valid : UsernameValidation_isValid Sample.env (username Sample.toAlice) = true)
    by reflexivity.
  assert (nonzero : paymentSatAmount Sample.env Sample.toAlice <> 0%Z)
    by (vm_compute; discriminate).
  assert (notSuccess : "FAILURE" <> "SUCCESS") by discriminate.
  assert (notPending : "FAILURE" <> "PENDING") by discriminate.
  destruct (payment_return_sets_status Sample.env Sample.toAlice false
              {| payload_errors := [ {| message := "no route" |} ];
                 payload_status := "FAILURE" |} None initialState)
    as [returns [user [_ [amountless onchain]]]].
  destruct (returns [ {| message := "no route" |} ] loadingState)
    as [_ [_ other]].
  specialize (other notSuccess notPending).
  destruct (payment_return_sets_status Sample.env Sample.toAlice false
              {| payload_errors := []; payload_status := "SUCCESS" |}
              None initialState) as [succeeded _].
  destruct (succeeded [] initialState) as [success _].
  destruct (payment_return_sets_status Sample.env Sample.toAlice false
              {| payload_errors := []; payload_status := "PENDING" |}
              None initialState) as [pended _].
  destruct (pended [] initialState) as [_ [pending _]].
  split; [exact valid|]. split; [exact nonzero|].
  split; [exact notSuccess|]. split; [exact notPending|].
  unfold Sample.failure.
  rewrite (user valid), (amountless nonzero), (onchain nonzero).
  cbn [visibleErrors payload_status payload_errors] in *.
  rewrite (success eq_refl), (pending eq_refl), other.
  split; [reflexivity|]. split; [reflexivity|]. split; [reflexivity|].
  split; reflexivity.
Defined.

(** ** Local checks *)

(** C4: a username that fails validation stops [payUsername], and a zero
    satoshi amount stops [payAmountlessLightning] and [payOnchain], before
    anything is sent: the only calls are the two setters, which leave the
    status [error] and one fixed message (invalid username, no amount);
    the trace holds no mutation, query, log or navigation. *)
Theorem failed_precondition_sends_nothing :
  forall env params reply st,
    (UsernameValidation_isValid env (username params) = false ->
     payUsername env params reply st =
       (Normal tt,
        refusedState (translate env "SendBitcoinScreen.invalidUsername" []),
        refusalCalls (translate env "SendBitcoinScreen.invalidUsername" [])))
    /\ (paymentSatAmount env params = 0%Z ->
        payAmountlessLightning env params reply st =
          (Normal tt,
           refusedState (translate env "SendBitcoinScreen.noAmount" []),
           refusalCalls (translate env "SendBitcoinScreen.noAmount" [])))
    /\ (paymentSatAmount env params = 0%Z ->
        payOnchain env params reply st =
          (Normal tt,
           refusedState (translate env "SendBitcoinScreen.noAmount" []),
           refusalCalls (translate env "SendBitcoinScreen.noAmount" [])))
    /\ (forall text, mutations (refusalCalls text) = []).
Proof.
  intros env params reply st.
  split; [|split; [|split]].
  - intros invalid. unfold payUsername. rewrite invalid. reflexivity.
  - intros zero. unfold payAmountlessLightning. rewrite zero. reflexivity.
  - intros zero. unfold payOnchain. rewrite zero. reflexivity.
  - reflexivity.
Qed.

Lemma failed_precondition_sends_nothing_witness :
  UsernameValidation_isValid Sample.env (username Sample.toNobody) = false /\
  paymentSatAmount Sample.env Sample.onchainNothing = 0%Z /\
  trace (payUsername Sample.env Sample.toNobody Sample.success initialState)
    = [SetStatus "error"; SetErrs [ {| message := "SendBitcoinScreen.invalidUsername" |} ]] /\
  trace (payAmountlessLightning Sample.env Sample.onchainNothing Sample.success
           initialState)
    = [SetStatus "error"; SetErrs [ {| message := "SendBitcoinScreen.noAmount" |} ]] /\
  trace (payOnchain Sample.env Sample.onchainNothing Sample.success initialState)
    = [SetStatus "error"; SetErrs [ {| message := "SendBitcoinScreen.noAmount" |} ]].
Proof.
  assert (invalid : UsernameValidation_isValid Sample.env (username Sample.toNobody) = false)
    by reflexivity.
  assert (zero : paymentSatAmount Sample.env Sample.onchainNothing = 0%Z)
    by reflexivity.
  destruct (failed_precondition_sends_nothing Sample.env Sample.toNobody
              Sample.success initialState) as [user _].
  destruct (failed_precondition_sends_nothing Sample.env Sample.onchainNothing
              Sample.success initialState) as [_ [amountless [onchain _]]].
  split; [exact invalid|]. split; [exact zero|].
  rewrite (user invalid), (amountless zero), (onchain zero).
  split; [reflexivity|]. split; reflexivity.
Defined.

(** ** The button *)

Lemma isSettled_true (s : StatusType) :
  s = Status.SUCCESS \/ s = Status.PENDING \/ s = Status.ERROR ->
  isSettled s = true.
Proof. intros [-> | [-> | ->]]; reflexivity. Qed.

Lemma isSettled_false (s : StatusType) :
  s <> Status.SUCCESS -> s <> Status.PENDING -> s <> Status.ERROR ->
  isSettled s = false.
Proof.
  intros notSuccess notPending notError. unfold isSettled.
  apply String.eqb_neq in notSuccess, notPending, notError.
  rewrite notSuccess, notPending, notError. reflexivity.
Qed.

Lemma length_positive (s : string) : s <> "" -> (0 <? String.length s)%nat = true.
Proof. destruct s; [congruence | reflexivity]. Qed.

(** C5, as worded, fails twice. With the exact sum as the total: at a
    payment of [2 ^ 53] satoshis with a fee of one satoshi against a balance
    of [2 ^ 53], the exact total exceeds the balance, but the screen adds
    doubles, its total is the balance, and the button reads confirm and
    sends the payment. And the button decides by the length of the balance
    message: where the translation of that message is empty, a total of
    5010 against a balance of 1000 is sent as well. *)
Lemma exceeding_balance_cancels_counterexample :
  ((paymentSatAmount Scenario.wholeLedgerEnv Scenario.wholeLedger + 1
    > balanceBtc Scenario.wholeLedgerEnv)%Z /\
   fee_value (fee Scenario.wholeLedgerEnv Scenario.wholeLedger) = Some 1%Z /\
   status initialState = Status.IDLE /\
   buttonTitle (render Scenario.wholeLedgerEnv Scenario.wholeLedger initialState)
     = "SendBitcoinConfirmationScreen.confirmPayment" /\
   mutations (trace (onPress Scenario.wholeLedgerEnv Scenario.wholeLedger
                       Sample.success initialState))
     = [(ONCHAIN_PAY,
         OnChainPaymentSendInput "bc1qexampleaddress" (2 ^ 53) "")]) /\
  ((paymentSatAmount Scenario.muteEnv Sample.onchainTooMuch + 10
    > balanceBtc Scenario.muteEnv)%Z /\
   fee_value (fee Scenario.muteEnv Sample.onchainTooMuch) = Some 10%Z /\
   mutations (trace (onPress Scenario.muteEnv Sample.onchainTooMuch
                       Sample.success initialState))
     = [(ONCHAIN_PAY,
         OnChainPaymentSendInput "bc1qexampleaddress" 5000 "coffee")]).
Proof.
  split.
  - split; [reflexivity|]. split; [reflexivity|]. split; [reflexivity|].
    split; vm_compute; reflexivity.
  - split; [reflexivity|]. split; vm_compute; reflexivity.
Qed.

(** C5 (amended): when the total as the screen computes it (the satoshi
    amount, or once the fee is known the sum of amount and fee as doubles
    add) exceeds the wallet balance, the balance message has a non-empty
    translation, and the payment has not reached success, pending or error,
    the button reads cancel and a press pops one screen: no state changes
    and nothing is sent. *)
Theorem exceeding_balance_cancels :
  forall env params reply st,
    (match fee_value (fee env params) with
     | None => paymentSatAmount env params
     | Some feeValue => plus (paymentSatAmount env params) feeValue
     end > balanceBtc env)%Z ->
    status st <> Status.SUCCESS ->
    status st <> Status.PENDING ->
    status st <> Status.ERROR ->
    translate env "SendBitcoinConfirmationScreen.totalExceed"
      [("balance",
        textCurrencyFormatting env (balanceBtc env) (useBTCPrice env)
          (primaryCurrency params))] <> "" ->
    buttonTitle (render env params st) = translate env "common.cancel" [] /\
    onPress env params reply st = (Normal tt, st, [NavigationPop 1]).
Proof.
  intros env params reply st exceeds notSuccess notPending notError translated.
  pose proof (isSettled_false _ notSuccess notPending notError) as open.
  assert (shown : (0 <? String.length (errorMessage env params))%nat = true).
  { unfold errorMessage, totalAmount, balance, btcPrice.
    apply Z.gtb_gt in exceeds. rewrite exceeds.
    apply length_positive. exact translated. }
  split.
  - cbn [render buttonTitle]. rewrite open, shown. reflexivity.
  - unfold onPress, bind, getStatus, call. rewrite open, shown. reflexivity.
Qed.

Lemma exceeding_balance_cancels_witness :
  buttonTitle (render Sample.env Sample.onchainTooMuch initialState) = "common.cancel" /\
  onPress Sample.env Sample.onchainTooMuch Sample.success initialState
    = (Normal tt, initialState, [NavigationPop 1]).
Proof.
  apply (exceeding_balance_cancels Sample.env Sample.onchainTooMuch Sample.success
           initialState).
  - vm_compute. reflexivity.
  - discriminate.
  - discriminate.
  - discriminate.
  - discriminate.
Defined.

(** C6: once the status is success, pending or error, a press of the button
    pops two screens and does nothing else, whatever the backend would
    reply; since the state is left as it was, this holds for every further
    press as well, so no sequence of presses sends a mutation again. *)
Theorem settled_payment_is_not_retried :
  forall env params st,
    status st = Status.SUCCESS \/ status st = Status.PENDING
    \/ status st = Status.ERROR ->
    (forall reply,
       onPress env params reply st = (Normal tt, st, [NavigationPop 2])) /\
    (forall replies,
       pressAll env params replies st
         = (Normal tt, st, repeat (NavigationPop 2) (length replies)) /\
       mutations (trace (pressAll env params replies st)) = []).
Proof.
  intros env params st closing.
  pose proof (isSettled_true _ closing) as settled.
  assert (press : forall reply,
            onPress env params reply st = (Normal tt, st, [NavigationPop 2])).
  { intros reply. unfold onPress, bind, getStatus, call.
    rewrite settled. reflexivity. }
  split; [exact press|].
  assert (presses : forall replies,
            pressAll env params replies st
              = (Normal tt, st, repeat (NavigationPop 2) (length replies))).
  { induction replies as [|reply rest IH]; [reflexivity|].
    cbn [pressAll length repeat]. unfold bind at 1.
    rewrite press, IH. reflexivity. }
  intros replies. split; [apply presses|].
  rewrite presses. cbn [trace snd].
  induction (length replies) as [|n IH]; [reflexivity | exact IH].
Qed.

Lemma settled_payment_is_not_retried_witness :
  onPress Sample.env Sample.toAlice Sample.success (Sample.stateWith Status.ERROR)
    = (Normal tt, Sample.stateWith Status.ERROR, [NavigationPop 2]).
Proof.
  apply (settled_payment_is_not_retried Sample.env Sample.toAlice
           (Sample.stateWith Status.ERROR)).
  right. right. reflexivity.
Defined.

(** ** The status enumeration *)

Lemma isStatusValue_spec (s : StatusType) :
  isStatusValue s = true <->
  s = "idle" \/ s = "loading" \/ s = "pending" \/ s = "success" \/ s = "error".
Proof.
  unfold isStatusValue, statusValues. cbn [existsb].
  rewrite !orb_true_iff, !String.eqb_eq.
  intuition discriminate.
Qed.

(** C7: the status starts as [idle]; the status values are the five members
    idle, loading, pending, success and error; every value an operation of
    the screen hands to the status setter is one of them, whatever the
    backend replies and whatever status string it returns; and so is the
    status of every state the screen can reach. *)
Theorem status_stays_in_enumeration :
  forall env params,
    status initialState = Status.IDLE /\
    (forall s, isStatusValue s = true <->
       s = "idle" \/ s = "loading" \/ s = "pending" \/ s = "success"
       \/ s = "error") /\
    (forall op st,
       forallb isStatusValue (statusUpdates (trace (perform env params op st)))
         = true) /\
    (forall st, Reachable env params st -> isStatusValue (status st) = true).
Proof.
  intros env params.
  split; [reflexivity|]. split; [exact isStatusValue_spec|]. split.
  - intros op st. apply (keeps_perform env params op st).
  - intros st reachable.
    induction reachable as [|st op reachable IH].
    + reflexivity.
    + apply (keeps_perform env params op st). exact IH.
Qed.

Lemma status_stays_in_enumeration_witness :
  isStatusValue
    (status (finalState (perform Sample.env Sample.toAlice (Press Sample.failure)
                           initialState))) = true.
Proof.
  apply (status_stays_in_enumeration Sample.env Sample.toAlice).
  apply Reachable_step. apply Reachable_initial.
Defined.

(** ** What depends on the status *)

(** C8, as worded, fails: two states that differ only in the status differ
    in more than what is drawn. After the render the effect hook fires a
    haptic notification in one and nothing in the other, and a press of the
    button sends the payment in one and closes the flow in the other. *)
Lemma status_drives_effects_counterexample :
  errs (Sample.stateWith Status.IDLE) = errs (Sample.stateWith Status.SUCCESS) /\
  trace (perform Sample.env Sample.toAlice StatusEffect (Sample.stateWith Status.IDLE))
    = [] /\
  trace (perform Sample.env Sample.toAlice StatusEffect (Sample.stateWith Status.SUCCESS))
    = [HapticTrigger (Some "notificationSuccess")
         {| enableVibrateFallback := true; ignoreAndroidSystemSettings := false |}] /\
  mutations (trace (onPress Sample.env Sample.toAlice Sample.success
                      (Sample.stateWith Status.IDLE)))
    = [(INTRA_LEDGER_PAY, IntraLedgerPaymentSendInput "alice" 500 "coffee")] /\
  trace (onPress Sample.env Sample.toAlice Sample.success
           (Sample.stateWith Status.SUCCESS))
    = [NavigationPop 2].
Proof.
  split; [reflexivity|]. split; [reflexivity|]. split; [reflexivity|].
  split; reflexivity.
Qed.

(** C8 (amended): the status drives the button title, the texts and the
    loading flag that are drawn, and with them the haptic notification of
    the effect hook and what a press of the button does. For two states
    that differ only in the status, the payment information drawn and the
    error list given to the indicator are the same, and [pay] makes the
    same calls and completes the same way. *)
Theorem status_independent_parts :
  forall env params reply st1 st2,
    errs st1 = errs st2 ->
    information (render env params st1) = information (render env params st2) /\
    fst (indicator (render env params st1)) = fst (indicator (render env params st2)) /\
    trace (pay env params reply st1) = trace (pay env params reply st2) /\
    completion (pay env params reply st1) = completion (pay env params reply st2).
Proof.
  intros env params reply st1 st2 sameErrs.
  split; [reflexivity|]. split; [exact sameErrs|].
  unfold pay, payUsername, payAmountlessLightning, payOnchain.
  split_reply reply;
  split; repeat split_if; run_handler; repeat split_if; reflexivity.
Qed.

Lemma status_independent_parts_witness :
  trace (pay Sample.env Sample.toAlice Sample.success (Sample.stateWith Status.IDLE))
    = trace (pay Sample.env Sample.toAlice Sample.success
               (Sample.stateWith Status.LOADING)).
Proof.
  apply (status_independent_parts Sample.env Sample.toAlice Sample.success
           (Sample.stateWith Status.IDLE) (Sample.stateWith Status.LOADING)).
  reflexivity.
Defined.

(** ** The authentication screen *)

(** C9: after a successful prompt the screen acts by its purpose. For
    [Authenticate] it resets the PIN attempts, replaces the current route
    with the primary screen and checks the clipboard, in this order; for
    [TurnOnAuthentication] it records that biometrics are enabled. After a
    failed or dismissed prompt it does nothing, whatever the purpose. *)
Theorem authentication_outcome :
  forall translate pinEnabled,
    let authenticate :=
      {| AuthenticationScreen.screenPurpose := AuthenticationScreen.Authenticate;
         AuthenticationScreen.isPinEnabled := pinEnabled |} in
    let turnOn :=
      {| AuthenticationScreen.screenPurpose := AuthenticationScreen.TurnOnAuthentication;
         AuthenticationScreen.isPinEnabled := pinEnabled |} in
    AuthenticationScreen.handleAuthenticationSuccess authenticate
      = [AuthenticationScreen.ResetPinAttempts;
         AuthenticationScreen.NavigationReplace "Primary";
         AuthenticationScreen.CheckClipboard] /\
    AuthenticationScreen.handleAuthenticationSuccess turnOn
      = [AuthenticationScreen.SetIsBiometricsEnabled] /\
    AuthenticationScreen.handleAuthenticationFailure = [] /\
    AuthenticationScreen.attemptAuthentication translate authenticate
      AuthenticationScreen.PromptSucceeded
      = [AuthenticationScreen.BiometricPrompt
           (Some (translate "AuthenticationScreen.authenticationDescription" []));
         AuthenticationScreen.ResetPinAttempts;
         AuthenticationScreen.NavigationReplace "Primary";
         AuthenticationScreen.CheckClipboard] /\
    AuthenticationScreen.attemptAuthentication translate turnOn
      AuthenticationScreen.PromptSucceeded
      = [AuthenticationScreen.BiometricPrompt
           (Some (translate "AuthenticationScreen.setUpAuthenticationDescription" []));
         AuthenticationScreen.SetIsBiometricsEnabled] /\
    (forall params,
       exists description,
         AuthenticationScreen.attemptAuthentication translate params
           AuthenticationScreen.PromptDismissed
         = [AuthenticationScreen.BiometricPrompt description]).
Proof.
  intros translate pinEnabled authenticate turnOn.
  split; [reflexivity|]. split; [reflexivity|]. split; [reflexivity|].
  split; [reflexivity|]. split; [reflexivity|].
  intros params. eexists. reflexivity.
Qed.

(** * Further properties of the authentication screen *)

(** X1: a purpose other than the two the screen names gets the prompt
    without a description, nothing happens however the prompt ends, no
    alternate button is offered and the main button has an empty title. *)
Theorem unnamed_purpose_is_inert :
  forall translate name pinEnabled result okPressed,
    let params :=
      {| AuthenticationScreen.screenPurpose := AuthenticationScreen.OtherPurpose name;
         AuthenticationScreen.isPinEnabled := pinEnabled |} in
    AuthenticationScreen.attemptAuthentication translate params result
      = [AuthenticationScreen.BiometricPrompt None] /\
    AuthenticationScreen.alternateContent translate params okPressed = [] /\
    AuthenticationScreen.title
      (AuthenticationScreen.mainButton translate params result) = "".
Proof.
  intros translate name pinEnabled result okPressed params.
  destruct result; split; [reflexivity | split; reflexivity
                          | reflexivity | split; reflexivity].
Qed.

(** X2: the alternate buttons offer the way to the PIN screen exactly when
    the purpose is [Authenticate] and the PIN is enabled; an enabled PIN
    does not show when biometrics are being set up. *)
Theorem pin_button_offered_iff :
  forall translate params okPressed,
    (exists button,
       In button (AuthenticationScreen.alternateContent translate params okPressed) /\
       In (AuthenticationScreen.NavigationNavigate "pin"
             AuthenticationScreen.AuthenticatePin)
          (AuthenticationScreen.onPress button))
    <-> (AuthenticationScreen.screenPurpose params = AuthenticationScreen.Authenticate /\
         AuthenticationScreen.isPinEnabled params = true).
Proof.
  intros translate [[| |name] [|]] okPressed;
    cbn [AuthenticationScreen.alternateContent AuthenticationScreen.pinButtonContent
         AuthenticationScreen.isAuthenticate AuthenticationScreen.isTurnOnAuthentication
         AuthenticationScreen.screenPurpose AuthenticationScreen.isPinEnabled app];
    (split; [intros [button [listed offered]] | intros [purpose enabled]]);
    try discriminate.
  - split; reflexivity.
  - eexists. split; [left; reflexivity | left; reflexivity].
  - exfalso. destruct listed as [<- | []].
    unfold AuthenticationScreen.logout in offered.
    destruct okPressed; cbn in offered; intuition discriminate.
  - exfalso. destruct listed as [<- | []]. cbn in offered. intuition discriminate.
  - exfalso. destruct listed as [<- | []]. cbn in offered. intuition discriminate.
  - destruct listed.
  - destruct listed.
Qed.

Lemma pin_button_offered_iff_witness :
  exists button,
    In button (AuthenticationScreen.alternateContent Scenario.label Scenario.unlock false) /\
    In (AuthenticationScreen.NavigationNavigate "pin"
          AuthenticationScreen.AuthenticatePin)
       (AuthenticationScreen.onPress button).
Proof.
  apply (pin_button_offered_iff Scenario.label Scenario.unlock false).
  split; reflexivity.
Defined.

(** X3: the secure storage is written only after a prompt that succeeded,
    and only as the purpose says: the PIN attempts are reset (and the
    clipboard checked) only for [Authenticate], biometrics are enabled only
    for [TurnOnAuthentication]. No alternate button (use PIN, log out, skip)
    does either. *)
Theorem keystore_written_only_after_success :
  forall translate params,
    (forall result,
       In AuthenticationScreen.ResetPinAttempts
          (AuthenticationScreen.attemptAuthentication translate params result) ->
       result = AuthenticationScreen.PromptSucceeded /\
       AuthenticationScreen.screenPurpose params = AuthenticationScreen.Authenticate) /\
    (forall result,
       In AuthenticationScreen.SetIsBiometricsEnabled
          (AuthenticationScreen.attemptAuthentication translate params result) ->
       result = AuthenticationScreen.PromptSucceeded /\
       AuthenticationScreen.screenPurpose params
         = AuthenticationScreen.TurnOnAuthentication) /\
    (forall okPressed button,
       In button (AuthenticationScreen.alternateContent translate params okPressed) ->
       ~ In AuthenticationScreen.ResetPinAttempts (AuthenticationScreen.onPress button) /\
       ~ In AuthenticationScreen.SetIsBiometricsEnabled
            (AuthenticationScreen.onPress button)).
Proof.
  intros translate [[| |name] pinEnabled].
  all: split; [|split].
  all: try (intros [|] found; cbn in found; intuition discriminate).
  all: intros okPressed button listed;
       destruct pinEnabled, okPressed; cbn in listed;
       intuition (subst; cbn in *; intuition discriminate).
Qed.

Lemma keystore_written_only_after_success_witness :
  AuthenticationScreen.PromptSucceeded = AuthenticationScreen.PromptSucceeded /\
  AuthenticationScreen.screenPurpose Scenario.unlock = AuthenticationScreen.Authenticate.
Proof.
  apply (keystore_written_only_after_success Scenario.label Scenario.unlock).
  cbn. right. left. reflexivity.
Defined.

(** * Further properties of the payment confirmation screen *)

Import Flow.
Local Open Scope string_scope.

(** ** The destination line *)

Lemma string_length_append (s1 s2 : string) :
  String.length (s1 ++ s2) = (String.length s1 + String.length s2)%nat.
Proof. induction s1 as [|c s1 IH]; cbn; [reflexivity | rewrite IH; reflexivity]. Qed.

Lemma substring_length (s : string) :
  forall n m, String.length (substring n m s) = Nat.min m (String.length s - n).
Proof.
  induction s as [|c s IH]; intros [|n] [|m]; cbn; try reflexivity.
  - rewrite IH. rewrite Nat.sub_0_r. reflexivity.
  - rewrite IH. reflexivity.
  - rewrite IH. reflexivity.
Qed.

Lemma substring_whole (s : string) :
  forall m, (String.length s <= m)%nat -> substring 0 m s = s.
Proof.
  induction s as [|c s IH]; intros [|m] bound; cbn in *; try reflexivity.
  - lia.
  - rewrite IH by lia. reflexivity.
Qed.

Lemma substring_split (s : string) :
  forall k m, (String.length s - k <= m)%nat ->
    s = substring 0 k s ++ substring k m s.
Proof.
  induction s as [|c s IH]; intros [|k] m bound.
  - destruct m; reflexivity.
  - destruct m; reflexivity.
  - cbn in bound. destruct m as [|m]; [lia|].
    cbn [substring append]. rewrite substring_whole by lia. reflexivity.
  - cbn [substring append]. rewrite <- IH; [reflexivity|]. cbn in bound. exact bound.
Qed.

(** X4: for a Lightning payment the destination line is a head and a tail
    of the invoice around three dots: the head is a prefix of the invoice,
    the tail a suffix, and each has 18 characters, or all of the invoice
    when it is shorter; the line never has more than 39 characters. *)
Theorem lightning_destination_is_abbreviated :
  forall params,
    paymentType params = "lightning" ->
    exists head tail rest front,
      destination params = head ++ "..." ++ tail /\
      invoice params = head ++ rest /\
      invoice params = front ++ tail /\
      String.length head = Nat.min 18 (String.length (invoice params)) /\
      String.length tail = Nat.min 18 (String.length (invoice params)) /\
      (String.length (destination params) <= 39)%nat.
Proof.
  intros params lightning.
  exists (substring 0 18 (invoice params)), (substrFromEnd 18 (invoice params)),
    (substring 18 (String.length (invoice params)) (invoice params)),
    (substring 0 (String.length (invoice params) - 18) (invoice params)).
  assert (shown : destination params
                  = substring 0 18 (invoice params) ++ "..."
                    ++ substrFromEnd 18 (invoice params)).
  { unfold destination. rewrite lightning. reflexivity. }
  split; [exact shown|].
  split; [apply substring_split; lia|].
  split; [unfold substrFromEnd; apply substring_split; lia|].
  assert (headLength : String.length (substring 0 18 (invoice params))
                       = Nat.min 18 (String.length (invoice params))).
  { rewrite substring_length, Nat.sub_0_r. reflexivity. }
  assert (tailLength : String.length (substrFromEnd 18 (invoice params))
                       = Nat.min 18 (String.length (invoice params))).
  { unfold substrFromEnd. rewrite substring_length. lia. }
  split; [exact headLength|]. split; [exact tailLength|].
  rewrite shown, !string_length_append, headLength, tailLength.
  cbn [String.length]. lia.
Qed.

Lemma lightning_destination_is_abbreviated_witness :
  exists head tail rest front,
    destination Sample.invoiceWithAmount = head ++ "..." ++ tail /\
    invoice Sample.invoiceWithAmount = head ++ rest /\
    invoice Sample.invoiceWithAmount = front ++ tail /\
    String.length head = Nat.min 18 (String.length (invoice Sample.invoiceWithAmount)) /\
    String.length tail = Nat.min 18 (String.length (invoice Sample.invoiceWithAmount)) /\
    (String.length (destination Sample.invoiceWithAmount) <= 39)%nat.
Proof.
  apply (lightning_destination_is_abbreviated Sample.invoiceWithAmount).
  reflexivity.
Defined.

(** X5: an invoice of at most 18 characters is not abbreviated at all: the
    destination line shows it twice, once on each side of the dots. *)
Theorem short_invoice_is_shown_twice :
  forall params,
    paymentType params = "lightning" ->
    (String.length (invoice params) <= 18)%nat ->
    destination params = invoice params ++ "..." ++ invoice params.
Proof.
  intros params lightning short.
  unfold destination, substrFromEnd. rewrite lightning. cbn [String.eqb].
  replace (String.length (invoice params) - 18)%nat with 0%nat by lia.
  rewrite substring_whole by exact short. reflexivity.
Qed.

Lemma short_invoice_is_shown_twice_witness :
  destination Scenario.shortInvoice = "lnbc1short...lnbc1short".
Proof.
  apply (short_invoice_is_shown_twice Scenario.shortInvoice).
  - reflexivity.
  - cbn. lia.
Defined.

(** ** The amounts shown *)

(** X6: the two amount lines are in the two different currencies, and one
    of them is the amount as it was entered, not converted; likewise one of
    the two total lines is the satoshi total itself. *)
Theorem one_line_shows_the_entered_amount :
  forall env params,
    currency (secondaryAmount env params) <> currency (primaryAmount env params) /\
    currency (primaryTotalAmount env params) = currency (primaryAmount env params) /\
    currency (secondaryTotalAmount env params) = currency (secondaryAmount env params) /\
    (primaryAmount env params = referenceAmount params \/
     secondaryAmount env params = referenceAmount params) /\
    (primaryTotalAmount env params
       = {| value := totalAmount env params; currency := BTC |} \/
     secondaryTotalAmount env params
       = {| value := totalAmount env params; currency := BTC |}).
Proof.
  intros env params.
  unfold primaryAmount, secondaryAmount, primaryTotalAmount, secondaryTotalAmount,
    secondaryCurrency, convertCurrency.
  destruct (referenceAmount params) as [entered [|]];
    destruct (primaryCurrency params); cbn;
    repeat split; try discriminate; auto.
Qed.

(** ** The button and the texts around it *)

Lemma onPress_run env params reply st :
  onPress env params reply st =
    if isSettled (status st) then (Normal tt, st, [NavigationPop 2])
    else if (0 <? String.length (errorMessage env params))%nat
         then (Normal tt, st, [NavigationPop 1])
         else pay env params reply st.
Proof.
  unfold onPress, bind, getStatus, call.
  destruct (isSettled (status st)); [reflexivity|].
  destruct (0 <? String.length (errorMessage env params))%nat; [reflexivity|].
  destruct (pay env params reply st) as [[r st2] t2]. reflexivity.
Qed.

Lemma errorMessage_within_balance env params :
  (totalAmount env params <= balanceBtc env)%Z -> errorMessage env params = "".
Proof.
  intros within. unfold errorMessage, balance.
  destruct (totalAmount env params >? balanceBtc env)%Z eqn:exceeds;
    [apply Z.gtb_gt in exceeds; lia | reflexivity].
Qed.

Lemma length_zero (s : string) : (0 <? String.length s)%nat = false -> s = "".
Proof. destruct s; [reflexivity | discriminate]. Qed.

(** X7: the label of the button always names what a press does. In every
    state exactly one of three cases holds: the payment is settled, the
    button reads close and a press pops two screens; or there is a balance
    message, the button reads cancel and a press pops one screen; or the
    button reads confirm and a press runs [pay]. *)
Theorem button_label_names_its_action :
  forall env params reply st,
    (isSettled (status st) = true /\
     buttonTitle (render env params st) = translate env "common.close" [] /\
     onPress env params reply st = (Normal tt, st, [NavigationPop 2]))
    \/ (isSettled (status st) = false /\
        errorMessage env params <> "" /\
        buttonTitle (render env params st) = translate env "common.cancel" [] /\
        onPress env params reply st = (Normal tt, st, [NavigationPop 1]))
    \/ (isSettled (status st) = false /\
        errorMessage env params = "" /\
        buttonTitle (render env params st)
          = translate env "SendBitcoinConfirmationScreen.confirmPayment" [] /\
        onPress env params reply st = pay env params reply st).
Proof.
  intros env params reply st.
  rewrite onPress_run. cbn [render buttonTitle].
  destruct (isSettled (status st)); [left; repeat split|].
  destruct (0 <? String.length (errorMessage env params))%nat eqn:shown.
  - right. left. repeat split.
    intros empty. rewrite empty in shown. discriminate.
  - right. right. repeat split. apply length_zero. exact shown.
Qed.

(** X8: while the total stays within the balance and the payment is not
    settled, the button reads confirm, no balance message is drawn and a
    press is a call of [pay]. This holds in status loading as well: the
    handler itself does not refuse a second press while the first request
    is in flight. *)
Theorem within_balance_press_pays :
  forall env params reply st,
    (totalAmount env params <= balanceBtc env)%Z ->
    status st = Status.IDLE \/ status st = Status.LOADING ->
    buttonTitle (render env params st)
      = translate env "SendBitcoinConfirmationScreen.confirmPayment" [] /\
    errorText (render env params st) = None /\
    onPress env params reply st = pay env params reply st.
Proof.
  intros env params reply st within open.
  pose proof (errorMessage_within_balance env params within) as silent.
  assert (unsettled : isSettled (status st) = false)
    by (destruct open as [-> | ->]; reflexivity).
  rewrite onPress_run. cbn [render buttonTitle errorText].
  rewrite unsettled, silent. cbn [String.length Nat.ltb Nat.leb andb].
  rewrite andb_false_r. repeat split.
Qed.

Lemma within_balance_press_pays_witness :
  onPress Sample.env Sample.toAlice Sample.success (Sample.stateWith Status.LOADING)
    = pay Sample.env Sample.toAlice Sample.success (Sample.stateWith Status.LOADING).
Proof.
  apply (within_balance_press_pays Sample.env Sample.toAlice Sample.success
           (Sample.stateWith Status.LOADING)).
  - cbv. discriminate.
  - right. reflexivity.
Defined.

(** X9: the balance message is drawn only when the total exceeds the
    balance, and never once the payment has succeeded or is pending; the
    request for confirmation is drawn exactly in status idle, and the
    button spins exactly in status loading. *)
Theorem texts_follow_status_and_balance :
  forall env params st,
    (forall text,
       errorText (render env params st) = Some text ->
       text = errorMessage env params /\
       (totalAmount env params > balanceBtc env)%Z /\
       status st <> Status.SUCCESS /\ status st <> Status.PENDING) /\
    (confirmationText (render env params st) <> None <-> status st = Status.IDLE) /\
    (buttonLoading (render env params st) = true <-> status st = Status.LOADING).
Proof.
  intros env params st. cbn [render errorText confirmationText buttonLoading].
  split; [|split].
  - intros text drawn.
    destruct (status st =? Status.SUCCESS) eqn:success; [discriminate|].
    destruct (status st =? Status.PENDING) eqn:pending; [discriminate|].
    cbn [orb negb andb] in drawn.
    destruct (0 <? String.length (errorMessage env params))%nat eqn:shown;
      [|discriminate].
    injection drawn as <-.
    apply String.eqb_neq in success, pending.
    repeat split; try assumption.
    unfold errorMessage, balance in shown.
    destruct (totalAmount env params >? balanceBtc env)%Z eqn:exceeds;
      [apply Z.gtb_gt; exact exceeds | discriminate].
  - destruct (String.eqb_spec (status st) "idle") as [idle | other].
    + split; [intros _; exact idle | discriminate].
    + split; [intros shown; contradiction | intros idle; contradiction].
  - apply String.eqb_eq.
Qed.

Lemma texts_follow_status_and_balance_witness :
  "SendBitcoinConfirmationScreen.totalExceed"
    = errorMessage Sample.env Sample.onchainTooMuch /\
  (totalAmount Sample.env Sample.onchainTooMuch > balanceBtc Sample.env)%Z /\
  status (Sample.stateWith Status.ERROR) <> Status.SUCCESS /\
  status (Sample.stateWith Status.ERROR) <> Status.PENDING.
Proof.
  apply (texts_follow_status_and_balance Sample.env Sample.onchainTooMuch
           (Sample.stateWith Status.ERROR)).
  reflexivity.
Defined.

(** ** What a payment attempt leaves behind *)

Local Open Scope list_scope.

Ltac unfold_pay :=
  unfold pay, payUsername, payAmountlessLightning, payOnchain.

Ltac eqb_facts :=
  repeat match goal with
  | H : (_ =? _)%string = true |- _ => apply String.eqb_eq in H
  | H : (_ =? _)%string = false |- _ => apply String.eqb_neq in H
  | H : (_ =? _)%Z = true |- _ => apply Z.eqb_eq in H
  | H : (_ =? _)%Z = false |- _ => apply Z.eqb_neq in H
  end.

Lemma mutations_app (t1 t2 : list Call) :
  mutations (t1 ++ t2) = mutations t1 ++ mutations t2.
Proof.
  induction t1 as [|c t1 IH]; [reflexivity|].
  destruct c; cbn; rewrite ?IH; reflexivity.
Qed.

(** X10: [pay] never throws, whatever the backend replies. For a known
    payment type it always ends in status success, pending or error, so the
    screen is never left in status loading, also when the local check
    refuses the payment or the response is unusable; for an unknown payment
    type it does nothing at all. *)
Theorem pay_always_settles :
  forall env params reply st,
    completion (pay env params reply st) = Normal tt /\
    (knownPaymentType params = true ->
     isSettled (status (finalState (pay env params reply st))) = true) /\
    (knownPaymentType params = false ->
     pay env params reply st = (Normal tt, st, [])).
Proof.
  intros env params reply st. unfold knownPaymentType. unfold_pay.
  split_reply reply;
    repeat split_if; run_handler; repeat split_if;
    repeat split; intros; try reflexivity; try discriminate.
Qed.

Lemma pay_always_settles_witness :
  isSettled
    (status (finalState (pay Sample.env Sample.toAlice Sample.networkDown
                           initialState))) = true.
Proof.
  apply (pay_always_settles Sample.env Sample.toAlice Sample.networkDown initialState).
  reflexivity.
Defined.

(** X11: for a known payment type the state [pay] leaves behind does not
    depend on the state it started from: an error list or a status left by
    an earlier attempt never shows in the result of a new one. *)
Theorem pay_forgets_earlier_state :
  forall env params reply st1 st2,
    knownPaymentType params = true ->
    finalState (pay env params reply st1) = finalState (pay env params reply st2).
Proof.
  intros env params reply st1 st2. unfold knownPaymentType. unfold_pay.
  split_reply reply;
    repeat split_if; run_handler; repeat split_if;
    intros; try reflexivity; try discriminate.
Qed.

Lemma pay_forgets_earlier_state_witness :
  finalState (pay Sample.env Sample.toAlice Sample.success Scenario.staleState)
    = finalState (pay Sample.env Sample.toAlice Sample.success initialState).
Proof.
  apply (pay_forgets_earlier_state Sample.env Sample.toAlice Sample.success
           Scenario.staleState initialState).
  reflexivity.
Defined.



(** X13: when a payment that passed its local check comes back with status
    ["SUCCESS"] or ["PENDING"], the error list is left empty: neither the
    payload's errors, nor top-level errors of the response, nor errors of
    an earlier attempt are shown. *)
Theorem success_and_pending_show_no_errors :
  forall env params reply st returned,
    knownPaymentType params = true ->
    precondition env params = true ->
    replyStatus reply = Some returned ->
    returned = "SUCCESS" \/ returned = "PENDING" ->
    finalState (pay env params reply st)
      = {| errs := [];
           status := if returned =? "SUCCESS" then Status.SUCCESS
                     else Status.PENDING |}.
Proof.
  intros env params reply st returned known passes delivered settled.
  revert known passes.
  unfold knownPaymentType, precondition. unfold_pay.
  destruct reply as [updated [[[[shown returned']|] topLevel]|error]];
    try discriminate delivered.
  cbn in delivered. injection delivered as ->.
  destruct (UsernameValidation_isValid env (username params));
  destruct (paymentSatAmount env params =? 0)%Z;
  destruct settled as [-> | ->];
  repeat split_if; run_handler; repeat split_if;
  intros; try reflexivity; try discriminate.
Qed.

Lemma success_and_pending_show_no_errors_witness :
  finalState (pay Sample.env Sample.toAlice Scenario.pendingReply Scenario.staleState)
    = {| errs := []; status := Status.PENDING |}.
Proof.
  apply (success_and_pending_show_no_errors Sample.env Sample.toAlice
           Scenario.pendingReply Scenario.staleState "PENDING").
  - reflexivity.
  - reflexivity.
  - reflexivity.
  - right. reflexivity.
Defined.

(** ** What is sent and fetched *)

(** X14: [pay] refreshes the wallet exactly when it sent a mutation and the
    reply delivered status ["SUCCESS"]; then it asks with the fetch policy
    network-only. A pending, failed, rejected or locally refused payment
    never refreshes the wallet. *)
Theorem wallet_refreshed_iff_success :
  forall env params reply st fetchPolicy,
    In (QueryWallet fetchPolicy) (trace (pay env params reply st)) <->
    (fetchPolicy = "network-only" /\
     mutations (trace (pay env params reply st)) <> [] /\
     replyStatus reply = Some "SUCCESS").
Proof.
  intros env params reply st fetchPolicy.
  unfold replyStatus. unfold_pay.
  split_reply reply;
    repeat split_if; run_handler; repeat split_if; eqb_facts;
    cbn [In]; (split; [intros found | intros [policy [sent delivered]]]);
    try discriminate; try contradiction;
    try (repeat destruct found as [found | found]; try discriminate; try contradiction;
         injection found as <-; repeat split; try discriminate; congruence);
    try (exfalso; congruence);
    try (subst fetchPolicy; intuition congruence).
Qed.

(** X15: an on-chain or an amountless Lightning mutation never carries the
    amount zero, and every mutation that carries an amount carries the
    satoshi amount of the payment. *)
Theorem sent_amount_is_the_payment_amount :
  forall env params reply st document input,
    In (document, input) (mutations (trace (pay env params reply st))) ->
    (forall amount, inputAmount input = Some amount ->
       amount = paymentSatAmount env params) /\
    (document = ONCHAIN_PAY \/ document = LN_NO_AMOUNT_PAY ->
     inputAmount input <> Some 0%Z).
Proof.
  intros env params reply st document input. unfold_pay.
  destruct (paymentSatAmount env params =? 0)%Z eqn:zero;
  split_reply reply;
    repeat split_if; run_handler; repeat split_if; eqb_facts;
    cbn [In]; intros sent; try contradiction;
    destruct sent as [sent | []]; injection sent as <- <-; cbn [inputAmount];
    (split; [intros amount [= <-]; reflexivity
            | intros [doc | doc]; try discriminate doc; congruence]).
Qed.

Lemma sent_amount_is_the_payment_amount_witness :
  inputAmount (OnChainPaymentSendInput "bc1qexampleaddress" 5000 "coffee")
    <> Some 0%Z.
Proof.
  apply (sent_amount_is_the_payment_amount Sample.env Sample.onchainTooMuch
           Sample.success initialState ONCHAIN_PAY
           (OnChainPaymentSendInput "bc1qexampleaddress" 5000 "coffee")).
  - cbn. left. reflexivity.
  - left. reflexivity.
Defined.

(** X16: the transactions are never fetched again after an amountless
    Lightning payment, since its mutation hook has no update callback; on
    the other three paths they are fetched, with the policy network-only,
    exactly when the client ran the callback. *)
Theorem transactions_refetched_except_amountless :
  forall env params reply st,
    (forall fetchPolicy,
       ~ In (QueryTransactions fetchPolicy)
            (trace (payAmountlessLightning env params reply st))) /\
    (UsernameValidation_isValid env (username params) = true ->
     (In (QueryTransactions "network-only") (trace (payUsername env params reply st))
      <-> cacheUpdated reply = true)) /\
    (In (QueryTransactions "network-only") (trace (payLightning params reply st))
     <-> cacheUpdated reply = true) /\
    (paymentSatAmount env params <> 0%Z ->
     (In (QueryTransactions "network-only") (trace (payOnchain env params reply st))
      <-> cacheUpdated reply = true)).
Proof.
  intros env params reply st.
  split; [|split; [|split]].
  - intros fetchPolicy. unfold payAmountlessLightning.
    split_reply reply;
      repeat split_if; run_handler; repeat split_if;
      cbn [In]; intuition discriminate.
  - intros valid. unfold payUsername. rewrite valid.
    split_reply reply;
      repeat split_if; run_handler; repeat split_if;
      cbn [In]; intuition discriminate.
  - split_reply reply;
      repeat split_if; run_handler; repeat split_if;
      cbn [In]; intuition discriminate.
  - intros nonzero. apply Z.eqb_neq in nonzero.
    unfold payOnchain. rewrite nonzero.
    split_reply reply;
      repeat split_if; run_handler; repeat split_if;
      cbn [In]; intuition discriminate.
Qed.

Lemma transactions_refetched_except_amountless_witness :
  In (QueryTransactions "network-only")
     (trace (payUsername Sample.env Sample.toAlice Sample.success initialState)) /\
  In (QueryTransactions "network-only")
     (trace (payOnchain Sample.env Sample.toAlice Sample.success initialState)).
Proof.
  destruct (transactions_refetched_except_amountless Sample.env Sample.toAlice
              Sample.success initialState) as [_ [user [_ onchain]]].
  split.
  - apply user; reflexivity.
  - apply onchain; [vm_compute; discriminate | reflexivity].
Defined.

Lemma wallet_refreshed_iff_success_witness :
  In (QueryWallet "network-only")
     (trace (pay Sample.env Sample.toAlice Sample.success initialState)).
Proof.
  apply (wallet_refreshed_iff_success Sample.env Sample.toAlice Sample.success
           initialState "network-only").
  split; [reflexivity|]. split; [discriminate | reflexivity].
Defined.

(** ** Sequences of presses *)

Lemma pay_cases env params reply st :
  exists st' t,
    pay env params reply st = (Normal tt, st', t) /\
    ((st' = st /\ t = []) \/
     (isSettled (status st') = true /\ (length (mutations t) <= 1)%nat)).
Proof.
  unfold_pay.
  split_reply reply;
    repeat split_if; run_handler; repeat split_if;
    eexists; eexists; (split; [reflexivity|]);
    first [ left; split; reflexivity
          | right; split; [reflexivity | cbn [mutations length]; lia] ].
Qed.

Lemma pressAll_settled env params replies st :
  isSettled (status st) = true ->
  pressAll env params replies st
    = (Normal tt, st, repeat (NavigationPop 2) (length replies)).
Proof.
  intros settled. induction replies as [|reply rest IH]; [reflexivity|].
  cbn [pressAll length repeat]. unfold bind at 1.
  rewrite onPress_run, settled, IH. reflexivity.
Qed.

Lemma mutations_repeat_pop (count n : nat) :
  mutations (repeat (NavigationPop count) n) = [].
Proof. induction n as [|n IH]; [reflexivity | exact IH]. Qed.

(** X17: however often the button is pressed, and whatever the backend
    replies each time, the presses send at most one mutation in all, when
    each request is answered before the next press: the press that pays
    leaves a closing status, and from then on every press only closes the
    flow. *)
Theorem presses_send_at_most_one_mutation :
  forall env params replies st,
    (length (mutations (trace (pressAll env params replies st))) <= 1)%nat.
Proof.
  intros env params replies.
  induction replies as [|reply rest IH]; intros st; [cbn; lia|].
  cbn [pressAll]. unfold bind at 1. rewrite onPress_run.
  destruct (isSettled (status st)).
  { specialize (IH st).
    destruct (pressAll env params rest st) as [[r st2] t2]. exact IH. }
  destruct (0 <? String.length (errorMessage env params))%nat.
  { specialize (IH st).
    destruct (pressAll env params rest st) as [[r st2] t2]. exact IH. }
  destruct (pay_cases env params reply st) as [st' [t [paid outcome]]].
  rewrite paid.
  destruct outcome as [[-> ->] | [settled once]].
  - specialize (IH st).
    destruct (pressAll env params rest st) as [[r st2] t2]. exact IH.
  - rewrite (pressAll_settled env params rest st' settled).
    cbn [trace snd]. rewrite mutations_app, mutations_repeat_pop, app_nil_r.
    exact once.
Qed.

(** ** Haptic feedback *)

Lemma statusUpdates_firstn (n : nat) (t : list Call) :
  forallb isStatusValue (statusUpdates t) = true ->
  forallb isStatusValue (statusUpdates (firstn n t)) = true.
Proof.
  revert n. induction t as [|c t IH]; intros [|n] valid; try reflexivity.
  destruct c; cbn [firstn statusUpdates] in *; try (apply IH; exact valid).
  cbn [forallb] in *. apply andb_true_iff in valid as [here later].
  rewrite here, (IH n later). reflexivity.
Qed.

Lemma applyCalls_status (calls : list Call) :
  forall st,
    isStatusValue (status st) = true ->
    forallb isStatusValue (statusUpdates calls) = true ->
    isStatusValue (status (applyCalls st calls)) = true.
Proof.
  induction calls as [|c calls IH]; intros st start valid; [exact start|].
  unfold applyCalls. cbn [fold_left]. apply IH.
  - destruct c; cbn [applyCall status]; try exact start.
    cbn [statusUpdates forallb] in valid.
    apply andb_true_iff in valid as [here _]. exact here.
  - destruct c; cbn [statusUpdates forallb] in valid; try exact valid.
    apply andb_true_iff in valid as [_ later]. exact later.
Qed.

Lemma rendered_status env params st :
  Rendered env params st -> isStatusValue (status st) = true.
Proof.
  intros rendered. induction rendered as [|st op n rendered IH].
  - reflexivity.
  - apply applyCalls_status; [exact IH|].
    apply statusUpdates_firstn. apply (keeps_perform env params op st).
Qed.

(** The final state of a handler is its setter calls applied in order, so
    every state an operation leaves behind is among the states drawn. *)
Lemma tracks_ret {A} (a : A) : tracksState (ret a).
Proof. intros st. reflexivity. Qed.

Lemma tracks_throw {A} (e : JsError) : tracksState (@throw A e).
Proof. intros st. reflexivity. Qed.

Lemma tracks_bind {A B} (c : M A) (k : A -> M B) :
  tracksState c -> (forall a, tracksState (k a)) -> tracksState (bind c k).
Proof.
  intros Hc Hk st. unfold bind.
  specialize (Hc st). destruct (c st) as [[[a|e] st1] t1]; cbn in *.
  - specialize (Hk a st1). destruct (k a st1) as [[r st2] t2]; cbn in *.
    unfold applyCalls in *. rewrite fold_left_app, <- Hc. exact Hk.
  - exact Hc.
Qed.

Lemma tracks_tryCatch {A} (body : M A) (handler : JsError -> M A) :
  tracksState body -> (forall e, tracksState (handler e)) ->
  tracksState (tryCatch body handler).
Proof.
  intros Hb Hh st. unfold tryCatch.
  specialize (Hb st). destruct (body st) as [[[a|e] st1] t1]; cbn in *.
  - exact Hb.
  - specialize (Hh e st1). destruct (handler e st1) as [[r st2] t2]; cbn in *.
    unfold applyCalls in *. rewrite fold_left_app, <- Hb. exact Hh.
Qed.

Lemma tracks_call (c : Call) :
  (forall st, applyCall st c = st) -> tracksState (call c).
Proof. intros idle st. cbn. symmetry. apply idle. Qed.

Lemma tracks_setStatus (s : StatusType) : tracksState (setStatus s).
Proof. intros st. reflexivity. Qed.

Lemma tracks_setErrs (l : list ErrorMessage) : tracksState (setErrs l).
Proof. intros st. reflexivity. Qed.

Lemma tracks_getStatus : tracksState getStatus.
Proof. intros st. reflexivity. Qed.

Lemma tracks_if {A} (b : bool) (c1 c2 : M A) :
  tracksState c1 -> tracksState c2 -> tracksState (if b then c1 else c2).
Proof. destruct b; trivial. Qed.

Create HintDb tracks.
#[local] Hint Resolve tracks_ret tracks_throw tracks_bind tracks_tryCatch
  tracks_setStatus tracks_setErrs tracks_getStatus tracks_if : tracks.
#[local] Hint Extern 1 (tracksState (call _)) =>
  apply tracks_call; intros ?; reflexivity : tracks.

Lemma tracks_await hook input reply :
  (forall callback, update hook = Some callback -> tracksState callback) ->
  tracksState (await hook input reply).
Proof.
  intros Hupdate. unfold await.
  apply tracks_bind; [auto with tracks|]. intros _.
  apply tracks_bind.
  - destruct (cacheUpdated reply); [|auto with tracks].
    destruct (update hook) as [callback|] eqn:E; auto with tracks.
  - intros _. destruct (settled reply); auto with tracks.
Qed.

Lemma tracks_payloadOf field result : tracksState (payloadOf field result).
Proof. unfold payloadOf. destruct (data result); auto with tracks. Qed.

Lemma tracks_queryTransactions : tracksState queryTransactions.
Proof. unfold queryTransactions. auto with tracks. Qed.

Lemma tracks_handlePaymentReturn status errors :
  tracksState (handlePaymentReturn status errors).
Proof. unfold handlePaymentReturn, queryWallet. auto 10 with tracks. Qed.

Lemma tracks_handlePaymentError error : tracksState (handlePaymentError error).
Proof. unfold handlePaymentError. auto 10 with tracks. Qed.

#[local] Hint Resolve tracks_handlePaymentReturn tracks_handlePaymentError
  tracks_payloadOf tracks_queryTransactions : tracks.
#[local] Hint Extern 2 (tracksState (await _ _ _)) =>
  apply tracks_await; cbn; intros ? [= <-]; auto with tracks : tracks.
#[local] Hint Extern 2 (tracksState (await lnNoAmountPay _ _)) =>
  apply tracks_await; cbn; discriminate : tracks.

Lemma tracks_payUsername env params reply :
  tracksState (payUsername env params reply).
Proof. unfold payUsername. auto 12 with tracks. Qed.

Lemma tracks_payLightning params reply : tracksState (payLightning params reply).
Proof. unfold payLightning. auto 12 with tracks. Qed.

Lemma tracks_payAmountlessLightning env params reply :
  tracksState (payAmountlessLightning env params reply).
Proof. unfold payAmountlessLightning. auto 12 with tracks. Qed.

Lemma tracks_payOnchain env params reply :
  tracksState (payOnchain env params reply).
Proof. unfold payOnchain. auto 12 with tracks. Qed.

#[local] Hint Resolve tracks_payUsername tracks_payLightning
  tracks_payAmountlessLightning tracks_payOnchain : tracks.

Lemma tracks_pay env params reply : tracksState (pay env params reply).
Proof. unfold pay. auto 10 with tracks. Qed.

#[local] Hint Resolve tracks_pay : tracks.

Lemma tracks_onPress env params reply : tracksState (onPress env params reply).
Proof. unfold onPress. auto 10 with tracks. Qed.

Lemma tracks_statusEffect status : tracksState (statusEffect status).
Proof. unfold statusEffect. auto 10 with tracks. Qed.

#[local] Hint Resolve tracks_onPress tracks_statusEffect : tracks.

Lemma tracks_perform env params op : tracksState (perform env params op).
Proof. destruct op; cbn [perform]; auto with tracks. Qed.

Lemma reachable_rendered env params st :
  Reachable env params st -> Rendered env params st.
Proof.
  intros reachable. induction reachable as [|st op reachable IH].
  - apply Rendered_initial.
  - rewrite (tracks_perform env params op st).
    rewrite <- (firstn_all (trace (perform env params op st))).
    apply Rendered_during. exact IH.
Qed.

(** X18: in every state the screen can draw, the states while a request is
    in flight included, the effect hook gives the haptic engine a defined
    notification or stays silent: nothing for idle and loading, the error
    notification for pending as well as for error, the success
    notification for success. Only a status outside the enumeration would
    make it trigger with an undefined notification. *)
Theorem haptic_notification_is_defined :
  forall env params st,
    Rendered env params st ->
    let optionsHaptic :=
      {| enableVibrateFallback := true; ignoreAndroidSystemSettings := false |} in
    (((status st = Status.IDLE \/ status st = Status.LOADING) /\
      statusEffect (status st) st = (Normal tt, st, []))
     \/ ((status st = Status.PENDING \/ status st = Status.ERROR) /\
         statusEffect (status st) st
           = (Normal tt, st, [HapticTrigger (Some "notificationError"%string)
                                optionsHaptic]))
     \/ (status st = Status.SUCCESS /\
         statusEffect (status st) st
           = (Normal tt, st, [HapticTrigger (Some "notificationSuccess"%string)
                                optionsHaptic])))
    /\ (forall other,
          isStatusValue other = false ->
          statusEffect other st = (Normal tt, st, [HapticTrigger None optionsHaptic])).
Proof.
  intros env params st rendered optionsHaptic. split.
  - apply rendered_status, isStatusValue_spec in rendered.
    destruct rendered as [-> | [-> | [-> | [-> | ->]]]].
    + left. split; [left|]; reflexivity.
    + left. split; [right|]; reflexivity.
    + right. left. split; [left|]; reflexivity.
    + right. right. split; reflexivity.
    + right. left. split; [right|]; reflexivity.
  - intros other outside.
    unfold isStatusValue, statusValues in outside. cbn [existsb] in outside.
    rewrite !orb_false_iff in outside.
    destruct outside as [idle [loading [pending [success [error _]]]]].
    unfold statusEffect.
    change (other =? "loading"%string) with (other =? Status.LOADING).
    change (other =? "idle"%string) with (other =? Status.IDLE).
    rewrite idle, loading, pending, success, error. reflexivity.
Qed.

(** The state in flight after the press that pays is among the states
    drawn, and the hook is silent in it. *)
Lemma haptic_notification_is_defined_witness :
  Rendered Sample.env Sample.toAlice loadingState /\
  statusEffect Status.LOADING loadingState = (Normal tt, loadingState, []).
Proof.
  assert (inFlight : Rendered Sample.env Sample.toAlice loadingState).
  { change loadingState
      with (applyCalls initialState
              (firstn 2 (trace (perform Sample.env Sample.toAlice
                                  (Press Sample.success) initialState)))).
    apply Rendered_during. apply Rendered_initial. }
  split; [exact inFlight|].
  destruct (haptic_notification_is_defined Sample.env Sample.toAlice loadingState
              inFlight) as [[[_ silent] | [[[other | other] _] | [other _]]] _].
  - exact silent.
  - discriminate other.
  - discriminate other.
  - discriminate other.
Defined.

(** ** The amount that is checked *)

(** X19: the local check for a zero amount looks at the amount converted to
    satoshis, not at the amount entered. An amount entered in BTC is taken
    as it is; an amount entered in USD that the converter turns into zero
    satoshis is refused on the on-chain and the amountless Lightning path
    like an empty amount, and nothing is sent. *)
Theorem zero_check_is_on_converted_amount :
  forall env params reply st,
    (currency (referenceAmount params) = BTC ->
     paymentSatAmount env params = value (referenceAmount params)) /\
    (currency (referenceAmount params) = USD ->
     paymentSatAmount env params
       = useCurrencyConverter env USD BTC (value (referenceAmount params))) /\
    (currency (referenceAmount params) = USD ->
     useCurrencyConverter env USD BTC (value (referenceAmount params)) = 0%Z ->
     payOnchain env params reply st
       = (Normal tt, refusedState (translate env "SendBitcoinScreen.noAmount" []),
          refusalCalls (translate env "SendBitcoinScreen.noAmount" [])) /\
     payAmountlessLightning env params reply st
       = (Normal tt, refusedState (translate env "SendBitcoinScreen.noAmount" []),
          refusalCalls (translate env "SendBitcoinScreen.noAmount" []))).
Proof.
  intros env params reply st.
  assert (dollars : currency (referenceAmount params) = USD ->
            paymentSatAmount env params
              = useCurrencyConverter env USD BTC (value (referenceAmount params))).
  { intros usd. unfold paymentSatAmount, convertCurrency, currencyConverter.
    rewrite usd. reflexivity. }
  split; [|split].
  - intros btc. unfold paymentSatAmount, convertCurrency. rewrite btc. reflexivity.
  - exact dollars.
  - intros usd nothing.
    unfold payOnchain, payAmountlessLightning.
    rewrite (dollars usd), nothing. split; reflexivity.
Qed.

Lemma zero_check_is_on_converted_amount_witness :
  value (referenceAmount Scenario.twoCentsOnchain) = 2%Z /\
  mutations (trace (payOnchain Scenario.coarseEnv Scenario.twoCentsOnchain
                      Sample.success initialState)) = [].
Proof.
  destruct (zero_check_is_on_converted_amount Scenario.coarseEnv
              Scenario.twoCentsOnchain Sample.success initialState)
    as [_ [_ refused]].
  destruct (refused eq_refl eq_refl) as [onchain _].
  split; [reflexivity|].
  rewrite onchain. reflexivity.
Defined.
